(** * TomoX order-book state: dump of the ask and bid tries

    Shallow embedding of [tomox/tomox_state/dump.go], of the ordered trie
    exercised by [tomox/tomox_state/tomox_trie_test.go], of the delete
    contract of [tomox/interfaces.go] and of the order entry points of
    [les/api_backend.go].

    Conventions: a [*big.Int] is a [Z]; a [common.Hash] (32 bytes) is the
    [Z] it denotes in big-endian, [0 <= h < 2^256]; a [[]byte] is a
    [list byte]; a Go map used as a dictionary is a [gmap]. *)

From Stdlib Require Import ZArith Lia.
From Stdlib Require Import Strings.Byte Strings.Ascii Strings.String DecimalString.
From stdpp Require Import base option list sorting gmap fin_maps strings.

Local Open Scope Z_scope.

Abbreviation bytes := (list byte).

(** ** Byte strings and big integers *)

(** [math/big]: [Int.SetBytes] reads a big-endian unsigned integer;
    the nil slice gives 0. *)
Definition SetBytes (buf : bytes) : Z :=
  fold_left (fun acc b => acc * 256 + Z.of_N (Byte.to_N b)) buf 0.

Definition HashLength : nat := 32.

(** [common.BytesToHash]: the slice is cropped from the left when it is
    longer than [HashLength] and left-padded with zeros otherwise. *)
Definition BytesToHash (b : bytes) : Z :=
  SetBytes (drop (length b - HashLength) b).

Definition byte_of (x : Z) : byte := default x00 (Byte.of_N (Z.to_N x)).

(** The [n] low bytes of [x], most significant first. *)
Fixpoint fixed_be (n : nat) (x : Z) : bytes :=
  match n with
  | O => []
  | S n' => fixed_be n' (x / 256) ++ [byte_of (x mod 256)]
  end.

Fixpoint strip_zeros (b : bytes) : bytes :=
  match b with
  | x00 :: b' => strip_zeros b'
  | _ => b
  end.

(** [math/big]: [Int.Bytes] is the big-endian absolute value without
    leading zeros; 0 gives the empty slice. *)
Definition Bytes (x : Z) : bytes :=
  strip_zeros (fixed_be (S (Z.to_nat (Z.log2 (Z.abs x)))) (Z.abs x)).

(** [common.BigToHash(b)] is [BytesToHash(b.Bytes())]; [h.Bytes()] is the
    32 bytes of the hash. *)
Definition BigToHash (x : Z) : Z := BytesToHash (Bytes x).

Definition Hash_Bytes (h : Z) : bytes := fixed_be HashLength h.

(** ** The ordered trie *)

Abbreviation Trie := (gmap Z bytes).

(** The trie package lies outside the files embedded here: [dump.go]
    iterates tries and the test file updates, deletes and queries one. A
    trie is kept as the finite map of its leaves, keyed by the number its
    fixed-width key denotes; the last component of a result is the Go
    [error], [None] for nil. *)

(** Modelled from the spec: [iterate()], the pairs in ascending key order,
    as a sequence fixed at call time. *)
Definition iterate {V : Type} (t : gmap Z V) : list (Z * V) :=
  omap (fun k => pair k <$> t !! k) (merge_sort Z.le (elements (dom t))).

(** Modelled from the spec: the leaves that
    [trie.NewIterator(t.NodeIterator(nil))] steps through, which is
    [iterate()]. *)
Definition NodeIterator (t : Trie) : list (Z * bytes) := iterate t.

(** Modelled from the spec: [update(key, value)] inserts or overwrites. *)
Definition TryUpdate (t : Trie) (key : Z) (value : bytes)
  : Trie * option string :=
  (<[key := value]> t, None).

(** Modelled from the spec: [delete(key)] removes the key if present and
    is a no-op, not an error, if it is absent. *)
Definition TryDelete (t : Trie) (key : Z) : Trie * option string :=
  (delete key t, None).

(** Modelled from the spec: [bestLeft()] is the entry with the smallest key
    currently present, absent on the empty trie. *)
Definition TryGetBestLeftKeyAndValue (t : Trie)
  : option (Z * bytes) * option string :=
  (head (NodeIterator t), None).

(** Modelled from the spec: [bestRight()] is the entry with the largest key
    currently present, absent on the empty trie. *)
Definition TryGetBestRightKeyAndValue (t : Trie)
  : option (Z * bytes) * option string :=
  (last (NodeIterator t), None).

(** ** State objects *)

Inductive Side := Ask | Bid.

(** Modelled from the spec: the stored price-level value. [type orderList
    struct] is declared outside [dump.go]; the spec gives its two fields,
    the aggregate volume and the root of the price's order queue. *)
Record orderList := { ol_Volume : Z; ol_Root : Z }.

(** The object [newStateOrderList] builds from its arguments. *)
Record stateOrderList := {
  orderType : Side;
  sol_orderBook : Z;
  sol_price : Z;
  sol_data : orderList
}.

(** Modelled from the spec: the exchange object of a book owns its ask and
    its bid trie. *)
Record stateExchanges := { asksTrie : Trie; bidsTrie : Trie }.

(** Modelled from the spec: the state holds the exchange objects by
    order-book identifier, the tries that can be opened by namespace and
    root, and the preimage registry of its trie. *)
Record TomoXStateDB := {
  stateExhangeObjects : gmap Z stateExchanges;
  db : gmap (Z * Z) Trie;
  preimages : gmap Z bytes
}.

(** Modelled from the spec: [getStateExchangeObject] returns nil when no
    entry exists under the order-book identifier. *)
Definition getStateExchangeObject (self : TomoXStateDB) (orderBook : Z)
  : option stateExchanges :=
  stateExhangeObjects self !! orderBook.

(** Modelled from the spec: the two tries the exchange object opens. *)
Definition getAsksTrie (ex : stateExchanges) (d : gmap (Z * Z) Trie) : Trie :=
  asksTrie ex.

Definition getBidsTrie (ex : stateExchanges) (d : gmap (Z * Z) Trie) : Trie :=
  bidsTrie ex.

(** Modelled from the spec: [GetKey] is [KeyPreimageRegistry.resolve]. Its
    Go result is a single byte slice, so an absent preimage is the nil
    slice. *)
Definition GetKey (self : TomoXStateDB) (key : Z) : bytes :=
  default [] (preimages self !! key).

Definition newStateOrderList (self : TomoXStateDB) (side : Side)
    (orderBook price : Z) (data : orderList) : stateOrderList :=
  {| orderType := side; sol_orderBook := orderBook;
     sol_price := price; sol_data := data |}.

(** Modelled from the spec: [getTrie] is [openTrie(rootDigest, namespace)],
    the namespace being the price the order list was created with. It
    returns a trie and no error; an unknown root opens the empty trie. *)
Definition getTrie (c : stateOrderList) (d : gmap (Z * Z) Trie) : Trie :=
  default ∅ (d !! (sol_price c, ol_Root (sol_data c))).

(** ** dump.go *)

Record DumpOrderList := { Volume : Z; Orders : list (Z * Z) }.

(** The two [fmt.Errorf] results of [dump.go], with the arguments their
    format strings print. *)
Inductive error :=
| ErrOrderBookNotFound (orderBook : Z)
| ErrFailDecodeOrderList (orderBook price : Z).

(** [common.Hash.Hex]: the 32 bytes in lower-case hexadecimal after 0x. *)
Definition hex_digit (d : Z) : ascii :=
  default "0"%char (String.get (Z.to_nat d) "0123456789abcdef").

Fixpoint hex_fixed (n : nat) (x : Z) : string :=
  match n with
  | O => ""
  | S n' => hex_fixed n' (x / 16) +:+ String (hex_digit (x mod 16)) ""
  end.

Definition Hex (h : Z) : string := "0x" +:+ hex_fixed 64 h.

(** The message of an [error], as [fmt.Errorf] formats it; a [*big.Int]
    prints in decimal. *)
Definition Error (e : error) : string :=
  match e with
  | ErrOrderBookNotFound orderBook =>
      "Order book not found orderBook : " +:+ Hex orderBook +:+ " "
  | ErrFailDecodeOrderList orderBook price =>
      "Fail when decode order iist orderBook : " +:+ Hex orderBook
      +:+ " ,price :" +:+ NilZero.string_of_int (Z.to_int price) +:+ " "
  end.

(** The result [map[*big.Int]DumpOrderList] is keyed by pointers to
    freshly allocated integers: every assignment adds an entry. It is kept
    here as the sequence of its assignments. *)
Abbreviation Snapshot := (list (Z * DumpOrderList)).

Section Dump.

(** [rlp.DecodeBytes(it.Value, &data)], [None] when it returns an error. *)
Variable DecodeBytes : bytes -> option orderList.

Fixpoint DumpAskTrie_loop (self : TomoXStateDB) (orderBook : Z)
    (it : list (Z * bytes)) (result : Snapshot) : Snapshot + error :=
  match it with
  | [] => inl result
  | (it_Key, it_Value) :: it' =>
      let priceByte := GetKey self it_Key in
      let price := SetBytes priceByte in
      match DecodeBytes it_Value with
      | None => inr (ErrFailDecodeOrderList orderBook price)
      | Some data =>
          let orderList :=
            newStateOrderList self Ask orderBook (BytesToHash priceByte) data in
          let orderListIt := NodeIterator (getTrie orderList (db self)) in
          let dumpOrderList :=
            {| Volume := ol_Volume data;
               Orders := fold_left (fun orders kv =>
                           orders ++ [(SetBytes (GetKey self kv.1), SetBytes kv.2)])
                           orderListIt [] |} in
          DumpAskTrie_loop self orderBook it' (result ++ [(price, dumpOrderList)])
      end
  end.

Definition DumpAskTrie (self : TomoXStateDB) (orderBook : Z)
  : Snapshot + error :=
  match getStateExchangeObject self orderBook with
  | None => inr (ErrOrderBookNotFound orderBook)
  | Some exhangeObject =>
      DumpAskTrie_loop self orderBook
        (NodeIterator (getAsksTrie exhangeObject (db self))) []
  end.

Fixpoint DumpBidTrie_loop (self : TomoXStateDB) (orderBook : Z)
    (it : list (Z * bytes)) (result : Snapshot) : Snapshot + error :=
  match it with
  | [] => inl result
  | (it_Key, it_Value) :: it' =>
      let priceByte := GetKey self it_Key in
      let price := SetBytes priceByte in
      match DecodeBytes it_Value with
      | None => inr (ErrFailDecodeOrderList orderBook price)
      | Some data =>
          let orderList :=
            newStateOrderList self Bid orderBook (BytesToHash priceByte) data in
          let orderListIt := NodeIterator (getTrie orderList (db self)) in
          let dumpOrderList :=
            {| Volume := ol_Volume data;
               Orders := fold_left (fun orders kv =>
                           orders ++ [(SetBytes (GetKey self kv.1), SetBytes kv.2)])
                           orderListIt [] |} in
          DumpBidTrie_loop self orderBook it' (result ++ [(price, dumpOrderList)])
      end
  end.

Definition DumpBidTrie (self : TomoXStateDB) (orderBook : Z)
  : Snapshot + error :=
  match getStateExchangeObject self orderBook with
  | None => inr (ErrOrderBookNotFound orderBook)
  | Some exhangeObject =>
      DumpBidTrie_loop self orderBook
        (NodeIterator (getBidsTrie exhangeObject (db self))) []
  end.

End Dump.


(** ** A functional description of the two loops

    What one iteration of the outer loop emits for a stored pair, and the
    result of the whole loop; the loops above are shown to compute it. *)

Definition dumpOrders (self : TomoXStateDB) (queue : Trie) : list (Z * Z) :=
  (fun kv => (SetBytes (GetKey self kv.1), SetBytes kv.2)) <$> NodeIterator queue.

Definition dumpEntry (self : TomoXStateDB) (key : Z) (data : orderList)
  : Z * DumpOrderList :=
  (SetBytes (GetKey self key),
   {| Volume := ol_Volume data;
      Orders := dumpOrders self
                  (default ∅ (db self !! (BytesToHash (GetKey self key), ol_Root data))) |}).

Fixpoint dumpEntries (DecodeBytes : bytes -> option orderList)
    (self : TomoXStateDB) (orderBook : Z) (it : list (Z * bytes))
  : Snapshot + error :=
  match it with
  | [] => inl []
  | kv :: it' =>
      match DecodeBytes kv.2 with
      | None => inr (ErrFailDecodeOrderList orderBook (SetBytes (GetKey self kv.1)))
      | Some data =>
          match dumpEntries DecodeBytes self orderBook it' with
          | inl r => inl (dumpEntry self kv.1 data :: r)
          | inr e => inr e
          end
      end
  end.

Definition is_not_found (e : error) : Prop :=
  match e with ErrOrderBookNotFound _ => True | _ => False end.

(** Every key of the trie resolves to a preimage that denotes the number
    of the key. *)
Definition resolves (self : TomoXStateDB) (t : Trie) : Prop :=
  map_Forall (fun k _ => SetBytes (GetKey self k) = k) t.

(** ** The write path of a price-level book

    The mutations lie outside the files embedded here; they are modelled
    from the spec's contracts of [ExchangeState] and [PriceLevelBook]. *)

Section WritePath.

Variable DecodeBytes : bytes -> option orderList.
(** The encoder of price-level values and the root digest that [commit]
    returns for a trie. *)
Variable EncodeToBytes : orderList -> bytes.
Variable rootDigest : Trie -> Z.

Definition sideTrie (side : Side) (ex : stateExchanges) : Trie :=
  match side with Ask => asksTrie ex | Bid => bidsTrie ex end.

Definition setSideTrie (side : Side) (t : Trie) (ex : stateExchanges)
  : stateExchanges :=
  match side with
  | Ask => {| asksTrie := t; bidsTrie := bidsTrie ex |}
  | Bid => {| asksTrie := asksTrie ex; bidsTrie := t |}
  end.

Definition emptyExchange : stateExchanges :=
  {| asksTrie := ∅; bidsTrie := ∅ |}.

(** Modelled from the spec: [openOrCreate(bookId)] returns the existing
    handle or a freshly initialised one with empty ask and bid books. *)
Definition openOrCreate (self : TomoXStateDB) (bookId : Z)
  : stateExchanges * TomoXStateDB :=
  match getStateExchangeObject self bookId with
  | Some ex => (ex, self)
  | None =>
      (emptyExchange,
       {| stateExhangeObjects := <[bookId := emptyExchange]> (stateExhangeObjects self);
          db := db self; preimages := preimages self |})
  end.

(** Modelled from the spec: [register(storageKey, semanticKeyBytes)]. *)
Definition register (storageKey : Z) (semanticKeyBytes : bytes)
    (reg : gmap Z bytes) : gmap Z bytes :=
  <[storageKey := semanticKeyBytes]> reg.

(** Modelled from the spec: the aggregate volume of a price level is the
    sum of the remaining volumes of its queue. *)
Definition aggregate (queue : Trie) : Z :=
  foldr (fun kv acc => SetBytes kv.2 + acc) 0 (NodeIterator queue).

(** Modelled from the spec: the queue of a price is committed and the
    price level written back; the level is deleted when its aggregate
    volume is 0, and otherwise updated, which registers the preimage of its
    key. *)
Definition writeLevel (self : TomoXStateDB) (bookId : Z) (side : Side)
    (ex : stateExchanges) (price : Z) (queue : Trie) (agg : Z)
    (reg : gmap Z bytes) : TomoXStateDB :=
  let priceKey := BigToHash price in
  let root := rootDigest queue in
  let d := <[(priceKey, root) := queue]> (db self) in
  if agg =? 0 then
    {| stateExhangeObjects :=
         <[bookId := setSideTrie side (delete priceKey (sideTrie side ex)) ex]>
           (stateExhangeObjects self);
       db := d; preimages := reg |}
  else
    {| stateExhangeObjects :=
         <[bookId := setSideTrie side
                       (<[priceKey := EncodeToBytes {| ol_Volume := agg; ol_Root := root |}]>
                          (sideTrie side ex)) ex]>
           (stateExhangeObjects self);
       db := d; preimages := register priceKey (Bytes price) reg |}.

(** Modelled from the spec: [upsertOrder(price, orderId, volumeDelta)]
    opens (creating if absent) the queue of the price, updates the order's
    volume or deletes the order when the resulting volume is not positive,
    recomputes the aggregate volume and writes it back, deleting the price
    level when the aggregate is 0. A stored level that does not decode is
    reported. *)
Definition upsertOrder (self : TomoXStateDB) (bookId : Z) (side : Side)
    (price orderId volumeDelta : Z) : TomoXStateDB + error :=
  let '(ex, self1) := openOrCreate self bookId in
  let priceKey := BigToHash price in
  let orderKey := BigToHash orderId in
  let opened :=
    match sideTrie side ex !! priceKey with
    | None => inl ∅
    | Some v =>
        match DecodeBytes v with
        | None => inr (ErrFailDecodeOrderList bookId price)
        | Some data =>
            inl (getTrie (newStateOrderList self1 side bookId priceKey data) (db self1))
        end
    end in
  match opened with
  | inr e => inr e
  | inl queue =>
      let old := match queue !! orderKey with Some v => SetBytes v | None => 0 end in
      let new := old + volumeDelta in
      if new <=? 0 then
        let queue' := delete orderKey queue in
        inl (writeLevel self1 bookId side ex price queue' (aggregate queue')
               (preimages self1))
      else
        let queue' := <[orderKey := Bytes new]> queue in
        inl (writeLevel self1 bookId side ex price queue' (aggregate queue')
               (register orderKey (Bytes orderId) (preimages self1)))
  end.

(** Modelled from the spec: [removeOrder(price, orderId)] deletes the order
    from its queue, decrements the aggregate volume and deletes the price
    level when the aggregate becomes 0; on an absent order it changes
    nothing and reports no error. *)
Definition removeOrder (self : TomoXStateDB) (bookId : Z) (side : Side)
    (price orderId : Z) : TomoXStateDB + error :=
  let priceKey := BigToHash price in
  let orderKey := BigToHash orderId in
  match getStateExchangeObject self bookId with
  | None => inl self
  | Some ex =>
      match sideTrie side ex !! priceKey with
      | None => inl self
      | Some v =>
          match DecodeBytes v with
          | None => inr (ErrFailDecodeOrderList bookId price)
          | Some data =>
              let queue :=
                getTrie (newStateOrderList self side bookId priceKey data) (db self) in
              match queue !! orderKey with
              | None => inl self
              | Some vol =>
                  inl (writeLevel self bookId side ex price (delete orderKey queue)
                         (ol_Volume data - SetBytes vol) (preimages self))
              end
          end
      end
  end.

Definition emptyState : TomoXStateDB :=
  {| stateExhangeObjects := ∅; db := ∅; preimages := ∅ |}.

(** A fresh empty book: the state right after the handle is created. *)
Definition freshBook (bookId : Z) : TomoXStateDB :=
  (openOrCreate emptyState bookId).2.

(** Mutations of the ask side of one book, and their sequential run. *)
Inductive op :=
| Upsert (price orderId volumeDelta : Z)
| Remove (price orderId : Z).

Definition apply_op (self : TomoXStateDB) (bookId : Z) (o : op)
  : TomoXStateDB + error :=
  match o with
  | Upsert price orderId volumeDelta =>
      upsertOrder self bookId Ask price orderId volumeDelta
  | Remove price orderId => removeOrder self bookId Ask price orderId
  end.

Fixpoint run (self : TomoXStateDB) (bookId : Z) (ops : list op)
  : TomoXStateDB + error :=
  match ops with
  | [] => inl self
  | o :: ops' =>
      match apply_op self bookId o with
      | inl self' => run self' bookId ops'
      | inr e => inr e
      end
  end.

(** Prices and order identifiers are keys of fixed width. *)
Definition is_hash (x : Z) : Prop := 0 <= x < 2 ^ 256.

Definition op_in_range (o : op) : Prop :=
  match o with
  | Upsert price orderId _ => is_hash price /\ is_hash orderId
  | Remove price orderId => is_hash price /\ is_hash orderId
  end.

(** The (price, orderId, volume) triples of a snapshot, in its order, as
    the upserts that replay them. *)
Definition triples (snap : Snapshot) : list op :=
  snap ≫= (fun e => (fun ov => Upsert e.1 ov.1 ov.2) <$> Orders e.2).

End WritePath.

(** The dump of one side of a book: [DumpAskTrie] for the asks,
    [DumpBidTrie] for the bids. *)
Definition DumpTrie (DecodeBytes : bytes -> option orderList) (side : Side)
    (self : TomoXStateDB) (orderBook : Z) : Snapshot + error :=
  match side with
  | Ask => DumpAskTrie DecodeBytes self orderBook
  | Bid => DumpBidTrie DecodeBytes self orderBook
  end.

(** ** The book of the data model

    The spec's data model of one side of a book: a price maps to the queue
    of its resting orders, an order identifier to its remaining volume.
    The mutations and the snapshot are restated on it, to be compared with
    the ones on the stored tries. *)

Abbreviation Book := (gmap Z (gmap Z Z)).

Definition total (q : gmap Z Z) : Z :=
  foldr (fun kv acc => kv.2 + acc) 0 (iterate q).

Definition book_upsert (a : Book) (price orderId volumeDelta : Z) : Book :=
  let q := default ∅ (a !! price) in
  let new := default 0 (q !! orderId) + volumeDelta in
  let q' := if new <=? 0 then delete orderId q else <[orderId := new]> q in
  if total q' =? 0 then delete price a else <[price := q']> a.

Definition book_remove (a : Book) (price orderId : Z) : Book :=
  match a !! price with
  | None => a
  | Some q =>
      match q !! orderId with
      | None => a
      | Some vol =>
          if total q - vol =? 0 then delete price a
          else <[price := delete orderId q]> a
      end
  end.

Definition book_apply (a : Book) (o : op) : Book :=
  match o with
  | Upsert price orderId volumeDelta => book_upsert a price orderId volumeDelta
  | Remove price orderId => book_remove a price orderId
  end.

Definition book_snapshot (a : Book) : Snapshot :=
  (fun pq => (pq.1, {| Volume := total pq.2; Orders := iterate pq.2 |}))
    <$> iterate a.

(** The invariants of the data model: keys of fixed width, no empty price
    level, positive remaining volumes. *)
Definition queue_wf (q : gmap Z Z) : Prop :=
  map_Forall (fun o v => is_hash o /\ 0 < v) q.

Definition book_wf (a : Book) : Prop :=
  map_Forall (fun p q => is_hash p /\ q <> ∅ /\ queue_wf q) a.

(** How a state stores the ask side of a book of the data model. *)
Definition queue_trie (q : gmap Z Z) : Trie := Bytes <$> q.

Definition level_value (EncodeToBytes : orderList -> bytes)
    (rootDigest : Trie -> Z) (q : gmap Z Z) : bytes :=
  EncodeToBytes {| ol_Volume := total q; ol_Root := rootDigest (queue_trie q) |}.

Definition registered (self : TomoXStateDB) (k : Z) : Prop :=
  preimages self !! k = Some (Bytes k).

Definition represents (EncodeToBytes : orderList -> bytes)
    (rootDigest : Trie -> Z) (self : TomoXStateDB) (bookId : Z) (a : Book)
  : Prop :=
  (exists ex, getStateExchangeObject self bookId = Some ex /\
              asksTrie ex = level_value EncodeToBytes rootDigest <$> a) /\
  (forall p q, a !! p = Some q ->
     db self !! (p, rootDigest (queue_trie q)) = Some (queue_trie q) /\
     registered self p /\
     forall o v, q !! o = Some v -> registered self o).

(** ** An instance of the codec and of the digest, to run examples *)

Definition sample_EncodeToBytes (x : orderList) : bytes :=
  Hash_Bytes (ol_Root x) ++ Bytes (ol_Volume x).

Definition sample_DecodeBytes (b : bytes) : option orderList :=
  if decide (length b < HashLength)%nat then None
  else Some {| ol_Volume := SetBytes (drop HashLength b);
               ol_Root := SetBytes (take HashLength b) |}.

Definition sample_rootDigest (t : Trie) : Z :=
  foldr (fun kv acc => acc * 31 + kv.1 * 7 + SetBytes kv.2 + 1) 0
    (NodeIterator t) mod 2 ^ 256.

(** ** Order entry points of the API backends

    [les/api_backend.go] and, for comparison, the full node's
    [eth/api_backend.go]. The pools are outside these files: their [Add]
    methods are parameters acting on the node they belong to. A [uint64]
    and a [common.Hash] are [Z]; an [error] is its message, [None] for
    nil. *)

Section ApiBackend.

Variables Context Transaction OrderTransaction : Type.
Variables LightEthereum Ethereum Oracle : Type.
Variable txPool_Add :
  LightEthereum -> Context -> Transaction -> LightEthereum * option string.
Variable orderPool_AddLocal :
  Ethereum -> OrderTransaction -> Ethereum * option string.

Record LesApiBackend := { les_eth : LightEthereum; les_gpo : Oracle }.

Record EthApiBackend := { eth_eth : Ethereum; eth_gpo : Oracle }.

Definition LesApiBackend_SendTx (b : LesApiBackend) (ctx : Context)
    (signedTx : Transaction) : LesApiBackend * option string :=
  let '(e, err) := txPool_Add (les_eth b) ctx signedTx in
  ({| les_eth := e; les_gpo := les_gpo b |}, err).

Definition LesApiBackend_SendOrderTx (b : LesApiBackend) (ctx : Context)
    (signedTx : OrderTransaction) : LesApiBackend * option string :=
  (b, None).

Definition LesApiBackend_GetOrderNonce (b : LesApiBackend) (address : Z)
  : Z * option string :=
  (0, Some "cannot find tomox service").

Definition EthApiBackend_SendOrderTx (b : EthApiBackend) (ctx : Context)
    (signedTx : OrderTransaction) : EthApiBackend * option string :=
  let '(e, err) := orderPool_AddLocal (eth_eth b) signedTx in
  ({| eth_eth := e; eth_gpo := eth_gpo b |}, err).

End ApiBackend.

(** ** The other entry points of the two backends

    [eth/api_backend.go] and [les/api_backend.go]. The node behind a
    backend ([b.eth]), its chain, pools and miner are outside these files:
    each method called on them is a parameter, a function of the node. A
    pointer that the code compares with nil is an [option]; a method call
    on a block or header is a function of it. An address is a [Z], zero for
    the empty address. Console and log output is not part of the model. *)

(** [uint64] arithmetic wraps around. *)
Definition wrap64 (x : Z) : Z := x mod 2 ^ 64.

(** [math/big]: [Int.Uint64] is the low 64 bits of the absolute value. *)
Definition Int_Uint64 (x : Z) : Z := Z.abs x mod 2 ^ 64.

(** How a call ends: it returns, it stops in a run-time panic, or it
    reaches a call of [log.Crit] (written before a [return nil] in the
    code). *)
Inductive outcome (A : Type) :=
| Return (a : A)
| Panic
| Crit.

Arguments Return {A} a.
Arguments Panic {A}.
Arguments Crit {A}.

Section Backends.

Variables Context Ethereum LightEthereum Oracle : Type.
Variables Block Header StateDB Receipt Log Transaction : Type.
Variables TomoX ChainDb Engine RewardLog Value : Type.

(** [rpc.PendingBlockNumber] and [rpc.LatestBlockNumber]. *)
Variables PendingBlockNumber LatestBlockNumber : Z.

(** The chain, miner and pools of a full node. *)
Variable miner_PendingBlock : Ethereum -> Block.
Variable miner_Pending : Ethereum -> Block * option StateDB.
Variable blockchain_CurrentBlock : Ethereum -> Block.
Variable blockchain_GetHeaderByNumber : Ethereum -> Z -> option Header.
Variable blockchain_GetHeaderByHash : Ethereum -> Z -> option Header.
Variable blockchain_GetBlockByNumber : Ethereum -> Z -> Block.
Variable blockchain_StateAt : Ethereum -> Z -> option StateDB * option string.
Variable eth_chainDb : Ethereum -> ChainDb.
Variable txPool_Pending :
  Ethereum -> gmap Z (list Transaction) * option string.
Variable eth_GetTomoX : Ethereum -> option TomoX.
Variable eth_engine : Ethereum -> Engine.

(** [b.eth.chainConfig.Posv] and [chain.Config().Posv]. *)
Variable chainConfig_Posv_Epoch : Ethereum -> Z.
Variable Config_Posv_FoudationWalletAddr : Ethereum -> Z.
Variable Config_Posv_RewardCheckpoint : Ethereum -> Z.
Variable Config_Posv_Reward : Ethereum -> Z.

(** Methods of blocks, headers and receipts. *)
Variable Block_Header : Block -> option Header.
Variable Block_Number : Block -> Z.
Variable Block_Time : Block -> Z.
Variable Block_Root : Block -> Z.
Variable Header_Root : Header -> Z.
Variable Header_Number : Header -> Z.
Variable Header_Hash : Header -> Z.
Variable Header_HashNoValidator : Header -> Z.
Variable Receipt_Logs : Receipt -> option (list Log).

(** Functions of other packages. *)
Variable core_GetBlockNumber : ChainDb -> Z -> Z.
Variable core_GetBlockReceipts : ChainDb -> Z -> Z -> option (list Receipt).
Variable stateDatabase_GetVoterCap : option StateDB -> Z -> Z -> Z.
Variable stateDatabase_GetCandidates : option StateDB -> list Z.
Variable stateDatabase_GetCandidateCap : option StateDB -> Z -> Z.
Variable GetTomoxState : TomoX -> Block -> option TomoXStateDB * option string.
Variable GetNonce : option TomoXStateDB -> Z -> Z.
Variable params_Ether : Z.
Variable common_BlocksPerYear : Z.
Variable rewardInflation : Z -> Z -> Z -> Z.
Variable contracts_GetRewardForCheckpoint :
  Engine -> Ethereum -> option Header -> Z ->
  gmap Z RewardLog * Z * option string.
Variable contracts_CalculateRewardForSigner :
  Z -> gmap Z RewardLog -> Z -> gmap Z Z * option string.
Variable contracts_CalculateRewardForHolders :
  Z -> option StateDB -> Z -> Z -> Z -> option string * option (gmap Z Z).

(** The reward files: [common.StoreRewardFolder], [filepath.Join],
    [ioutil.ReadFile] on the file system of the call, and [json.Unmarshal]
    into the map it is given. *)
Variable common_StoreRewardFolder : string.
Variable filepath_Join : string -> string -> string.
Variable ioutil_ReadFile : string -> bytes * option string.
Variable json_Unmarshal :
  bytes -> gmap string Value -> gmap string Value * option string.
Variable les_blockchain_GetHeaderByHash : LightEthereum -> Z -> option Header.

Abbreviation EthBackend := (EthApiBackend Ethereum Oracle).
Abbreviation LesBackend := (LesApiBackend LightEthereum Oracle).
Abbreviation b_eth := (eth_eth Ethereum Oracle).

Definition EthApiBackend_CurrentBlock (b : EthBackend) : Block :=
  blockchain_CurrentBlock (b_eth b).

Definition EthApiBackend_HeaderByNumber (b : EthBackend) (ctx : Context)
    (blockNr : Z) : option Header * option string :=
  if decide (blockNr = PendingBlockNumber) then
    let block := miner_PendingBlock (b_eth b) in
    (Block_Header block, None)
  else if decide (blockNr = LatestBlockNumber) then
    (Block_Header (blockchain_CurrentBlock (b_eth b)), None)
  else (blockchain_GetHeaderByNumber (b_eth b) (wrap64 blockNr), None).

Definition EthApiBackend_StateAndHeaderByNumber (b : EthBackend)
    (ctx : Context) (blockNr : Z)
  : option StateDB * option Header * option string :=
  if decide (blockNr = PendingBlockNumber) then
    let '(block, state) := miner_Pending (b_eth b) in
    (state, Block_Header block, None)
  else
    let '(header, err) := EthApiBackend_HeaderByNumber b ctx blockNr in
    match header, err with
    | Some h, None =>
        let '(stateDb, err) := blockchain_StateAt (b_eth b) (Header_Root h) in
        (stateDb, header, err)
    | _, _ => (None, None, err)
    end.

(** The loop [for i, receipt := range receipts { logs[i] = receipt.Logs }]. *)
Fixpoint GetLogs_loop (i : nat) (receipts : list Receipt)
    (logs : list (option (list Log))) : list (option (list Log)) :=
  match receipts with
  | [] => logs
  | receipt :: receipts' =>
      GetLogs_loop (S i) receipts' (<[i := Receipt_Logs receipt]> logs)
  end.

Definition EthApiBackend_GetLogs (b : EthBackend) (ctx : Context)
    (blockHash : Z) : option (list (option (list Log))) * option string :=
  let receipts :=
    core_GetBlockReceipts (eth_chainDb (b_eth b)) blockHash
      (core_GetBlockNumber (eth_chainDb (b_eth b)) blockHash) in
  match receipts with
  | None => (None, None)
  | Some receipts =>
      let logs := replicate (length receipts) None in
      (Some (GetLogs_loop 0 receipts logs), None)
  end.

(** [range pending] visits the batches of the map in an order the
    language leaves open: the visiting order is an argument. A nil slice
    is the empty list. *)
Definition EthApiBackend_GetPoolTransactions (b : EthBackend)
    (range : list (Z * list Transaction))
  : list Transaction * option string :=
  let '(pending, err) := txPool_Pending (b_eth b) in
  match err with
  | Some e => ([], Some e)
  | None => (foldl (fun txs batch => txs ++ batch.2) [] range, None)
  end.

Definition EthApiBackend_GetVotersCap (b : EthBackend)
    (checkpoint masterAddr : Z) (voters : list Z) : option (gmap Z Z) :=
  let chain := b_eth b in
  let checkpointBlock := blockchain_GetBlockByNumber chain (Int_Uint64 checkpoint) in
  let '(state, err) := blockchain_StateAt chain (Block_Root checkpointBlock) in
  match err with
  | Some _ => None
  | None =>
      Some (foldl (fun voterCaps voteAddr =>
                     <[voteAddr := stateDatabase_GetVoterCap state masterAddr voteAddr]>
                       voterCaps) ∅ voters)
  end.

Definition EthApiBackend_GetMasternodesCap (b : EthBackend) (checkpoint : Z)
  : option (gmap Z Z) :=
  let checkpointBlock := blockchain_GetBlockByNumber (b_eth b) checkpoint in
  let '(state, err) := blockchain_StateAt (b_eth b) (Block_Root checkpointBlock) in
  match err with
  | Some _ => None
  | None =>
      let candicates := stateDatabase_GetCandidates state in
      Some (foldl (fun masternodesCap candicate =>
                     <[candicate := stateDatabase_GetCandidateCap state candicate]>
                       masternodesCap) ∅ candicates)
  end.

(** [number % Epoch] panics when the epoch is 0. *)
Definition EthApiBackend_GetEpochDuration (b : EthBackend) : outcome Z :=
  let chain := b_eth b in
  let block := blockchain_CurrentBlock chain in
  let number := Int_Uint64 (Block_Number block) in
  let Epoch := chainConfig_Posv_Epoch (b_eth b) in
  if Epoch =? 0 then Panic
  else
    let lastCheckpointNumber := wrap64 (number - number mod Epoch) in
    let lastCheckpointBlockTime :=
      Block_Time (blockchain_GetBlockByNumber chain lastCheckpointNumber) in
    let secondToLastCheckpointNumber := wrap64 (lastCheckpointNumber - Epoch) in
    let secondToLastCheckpointBlockTime :=
      Block_Time (blockchain_GetBlockByNumber chain secondToLastCheckpointNumber) in
    Return (secondToLastCheckpointBlockTime + lastCheckpointBlockTime * (-1)).

Definition EthApiBackend_GetOrderNonce (b : EthBackend) (address : Z)
  : Z * option string :=
  let tomoxService := eth_GetTomoX (b_eth b) in
  match tomoxService with
  | Some tomoxService =>
      let '(tomoxState, err) :=
        GetTomoxState tomoxService (EthApiBackend_CurrentBlock b) in
      match err with
      | Some e => (0, Some e)
      | None => (GetNonce tomoxState address, None)
      end
  | None => (0, Some "cannot find tomox service")
  end.

(** The name of a reward file: [number.String() + "." + hash.Hex()]. *)
Definition rewardFileName (number hash : Z) : string :=
  NilZero.string_of_int (Z.to_int number) +:+ "." +:+ Hex hash.

Definition EthApiBackend_GetRewardByHash (s : EthBackend) (hash : Z)
  : gmap string Value :=
  let header := blockchain_GetHeaderByHash (b_eth s) hash in
  match header with
  | Some header =>
      let '(data, err) :=
        ioutil_ReadFile (filepath_Join common_StoreRewardFolder
          (rewardFileName (Header_Number header) (Header_Hash header))) in
      match err with
      | None =>
          let '(rewards, err) := json_Unmarshal data ∅ in
          match err with
          | None => rewards
          | Some _ => ∅
          end
      | Some _ =>
          let '(data, err) :=
            ioutil_ReadFile (filepath_Join common_StoreRewardFolder
              (rewardFileName (Header_Number header)
                 (Header_HashNoValidator header))) in
          match err with
          | None =>
              let '(rewards, err) := json_Unmarshal data ∅ in
              match err with
              | None => rewards
              | Some _ => ∅
              end
          | Some _ => ∅
          end
      end
  | None => ∅
  end.

Definition LesApiBackend_GetRewardByHash (s : LesBackend) (hash : Z)
  : gmap string Value :=
  let header :=
    les_blockchain_GetHeaderByHash (les_eth LightEthereum Oracle s) hash in
  match header with
  | Some header =>
      let '(data, err) :=
        ioutil_ReadFile (filepath_Join common_StoreRewardFolder
          (rewardFileName (Header_Number header) (Header_Hash header))) in
      match err with
      | None =>
          let '(rewards, err) := json_Unmarshal data ∅ in
          match err with
          | None => rewards
          | Some _ => ∅
          end
      | Some _ =>
          let '(data, err) :=
            ioutil_ReadFile (filepath_Join common_StoreRewardFolder
              (rewardFileName (Header_Number header)
                 (Header_HashNoValidator header))) in
          match err with
          | None =>
              let '(rewards, err) := json_Unmarshal data ∅ in
              match err with
              | None => rewards
              | Some _ => ∅
              end
          | Some _ => ∅
          end
      end
  | None => ∅
  end.

(** The loop over [rewardSigners], in the visiting order [range]: the
    first signer equal to the masternode decides the result. *)
Fixpoint GetVotersRewards_loop (foundationWalletAddr : Z)
    (state : option StateDB) (masternodeAddr number : Z)
    (range : list (Z * Z)) (voterResults : option (gmap Z Z))
  : outcome (option (gmap Z Z)) :=
  match range with
  | [] => Return voterResults
  | (signer, calcReward) :: range' =>
      if decide (signer = masternodeAddr) then
        let '(err, rewards) :=
          contracts_CalculateRewardForHolders foundationWalletAddr state
            masternodeAddr calcReward number in
        match err with
        | Some _ => Crit
        | None => Return rewards
        end
      else
        GetVotersRewards_loop foundationWalletAddr state masternodeAddr
          number range' voterResults
  end.

(** [range] is the order in which [range rewardSigners] visits the map.
    A nil map is [None]. *)
Definition EthApiBackend_GetVotersRewards (b : EthBackend)
    (masternodeAddr : Z) (range : list (Z * Z))
  : outcome (option (gmap Z Z)) :=
  let chain := b_eth b in
  let block := blockchain_CurrentBlock chain in
  let number := Int_Uint64 (Block_Number block) in
  let engine := eth_engine (b_eth b) in
  let foundationWalletAddr := Config_Posv_FoudationWalletAddr chain in
  let Epoch := chainConfig_Posv_Epoch (b_eth b) in
  if Epoch =? 0 then Panic
  else
    let lastCheckpointNumber :=
      wrap64 (wrap64 (number - number mod Epoch) - Epoch) in
    let lastCheckpointBlock :=
      blockchain_GetBlockByNumber chain lastCheckpointNumber in
    let rCheckpoint := Config_Posv_RewardCheckpoint chain in
    let '(state, err) := blockchain_StateAt chain (Block_Root lastCheckpointBlock) in
    match err with
    | Some _ => Return None
    | None =>
        if decide (foundationWalletAddr = 0) then Return None
        else if (lastCheckpointNumber <=? 0)
                || (wrap64 (lastCheckpointNumber - rCheckpoint) <=? 0)
                || bool_decide (foundationWalletAddr = 0)
        then Return None
        else
          let chainReward := Config_Posv_Reward chain * params_Ether in
          let chainReward :=
            rewardInflation chainReward lastCheckpointNumber common_BlocksPerYear in
          let '(signers, totalSigner, err) :=
            contracts_GetRewardForCheckpoint engine chain
              (Block_Header lastCheckpointBlock) rCheckpoint in
          match err with
          | Some _ => Crit
          | None =>
              let '(rewardSigners, err) :=
                contracts_CalculateRewardForSigner chainReward signers totalSigner in
              match err with
              | Some _ => Crit
              | None =>
                  if (size signers <=? 0)%nat then Return None
                  else
                    GetVotersRewards_loop foundationWalletAddr state
                      masternodeAddr number range None
              end
          end
    end.

End Backends.

Arguments EthApiBackend_CurrentBlock {Ethereum Oracle Block}.
Arguments EthApiBackend_HeaderByNumber {Context Ethereum Oracle Block Header}.
Arguments EthApiBackend_StateAndHeaderByNumber
  {Context Ethereum Oracle Block Header StateDB}.
Arguments GetLogs_loop {Receipt Log}.
Arguments EthApiBackend_GetLogs {Context Ethereum Oracle Receipt Log ChainDb}.
Arguments EthApiBackend_GetPoolTransactions {Ethereum Oracle Transaction}.
Arguments EthApiBackend_GetVotersCap {Ethereum Oracle Block StateDB}.
Arguments EthApiBackend_GetMasternodesCap {Ethereum Oracle Block StateDB}.
Arguments EthApiBackend_GetEpochDuration {Ethereum Oracle Block}.
Arguments EthApiBackend_GetOrderNonce {Ethereum Oracle Block TomoX}.
Arguments EthApiBackend_GetRewardByHash {Ethereum Oracle Header Value}.
Arguments LesApiBackend_GetRewardByHash {LightEthereum Oracle Header Value}.
Arguments GetVotersRewards_loop {StateDB}.
Arguments EthApiBackend_GetVotersRewards
  {Ethereum Oracle Block Header StateDB Engine RewardLog}.

(** ** Example states *)

(** Closes a ground goal whose proposition is decidable. *)
Ltac by_decision := apply (bool_decide_unpack _); vm_compute; exact I.

Definition book1 : Z := 1.
Definition book2 : Z := 2.

Definition sample_run (ops : list op) : TomoXStateDB + error :=
  run sample_DecodeBytes sample_EncodeToBytes sample_rootDigest
    (freshBook book1) book1 ops.

(** The scenario of the spec: three orders at two prices. *)
Definition scenario_ops : list op :=
  [Upsert 100 1 5; Upsert 100 2 3; Upsert 90 3 10].

(** The trie of the test file: keys and values [BigToHash(1)] and
    [BigToHash(2)]. *)
Definition test_trie : Trie :=
  (TryUpdate (TryUpdate ∅ (BigToHash 1) (Hash_Bytes (BigToHash 1))).1
     (BigToHash 2) (Hash_Bytes (BigToHash 2))).1.

(** A queue of two orders, 5 and 3, stored under price 100 and root 7. *)
Definition queue53 : Trie := <[1 := Bytes 5]> (<[2 := Bytes 3]> ∅).

(** A book whose three price levels are stored under keys 1, 2 and 3, the
    registry holding only the preimage of key 2. *)
Definition state_miss : TomoXStateDB :=
  {| stateExhangeObjects :=
       {[ book1 := {| asksTrie :=
                        <[1 := sample_EncodeToBytes {| ol_Volume := 5; ol_Root := 0 |}]>
                          (<[2 := sample_EncodeToBytes {| ol_Volume := 7; ol_Root := 0 |}]>
                             (<[3 := sample_EncodeToBytes {| ol_Volume := 9; ol_Root := 0 |}]> ∅));
                      bidsTrie := ∅ |} ]};
     db := ∅;
     preimages := {[ 2 := Bytes 2 ]} |}.

(** Two books, the ask trie of the first and the bid trie of the second
    holding the same pair, whose value does not decode. *)
Definition bad_side : Trie := {[ 100 := [x01] ]}.

Definition state_bad : TomoXStateDB :=
  {| stateExhangeObjects :=
       {[ book1 := {| asksTrie := bad_side; bidsTrie := ∅ |};
          book2 := {| asksTrie := ∅; bidsTrie := bad_side |} ]};
     db := ∅;
     preimages := {[ 100 := Bytes 100 ]} |}.

(** A price level whose stored aggregate, 100, is not the sum 8 of its
    queue. *)
Definition state_disagree : TomoXStateDB :=
  {| stateExhangeObjects :=
       {[ book1 := {| asksTrie :=
                        {[ 100 := sample_EncodeToBytes {| ol_Volume := 100; ol_Root := 7 |} ]};
                      bidsTrie :=
                        {[ 100 := sample_EncodeToBytes {| ol_Volume := 100; ol_Root := 7 |} ]} |} ]};
     db := {[ (100, 7) := queue53 ]};
     preimages := {[ 100 := Bytes 100 ]} ∪ {[ 1 := Bytes 1 ]} ∪ {[ 2 := Bytes 2 ]} |}.

(** The state the scenario of the spec reaches, and its exchange object. *)
Definition scenario_state : TomoXStateDB :=
  match sample_run scenario_ops with inl st => st | inr _ => emptyState end.

Definition scenario_exchange : stateExchanges :=
  default emptyExchange (getStateExchangeObject scenario_state book1).

Definition scenario_snapshot : Snapshot :=
  [(90, {| Volume := 10; Orders := [(3, 10)] |});
   (100, {| Volume := 8; Orders := [(1, 5); (2, 3)] |})].

Definition exchange_miss : stateExchanges :=
  default emptyExchange (getStateExchangeObject state_miss book1).

Definition exchange_bad : stateExchanges :=
  default emptyExchange (getStateExchangeObject state_bad book1).

Definition exchange_disagree : stateExchanges :=
  default emptyExchange (getStateExchangeObject state_disagree book1).

(** The state [state_disagree] with another bid trie and a second book. *)
Definition state_disagree_other : TomoXStateDB :=
  {| stateExhangeObjects :=
       {[ book1 := {| asksTrie :=
                        {[ 100 := sample_EncodeToBytes {| ol_Volume := 100; ol_Root := 7 |} ]};
                      bidsTrie := bad_side |};
          book2 := {| asksTrie := bad_side; bidsTrie := ∅ |} ]};
     db := db state_disagree;
     preimages := preimages state_disagree |}.

Definition exchange_disagree_other : stateExchanges :=
  default emptyExchange (getStateExchangeObject state_disagree_other book1).

(** ** An example node

    An instance of the parameters of the backends: a block and a header
    are their number, the node is a unit. *)

Definition sample_node : EthApiBackend unit unit :=
  {| eth_eth := tt; eth_gpo := tt |}.

Definition sample_light_node : LesApiBackend unit unit :=
  {| les_eth := tt; les_gpo := tt |}.

Definition sample_pending : gmap Z (list Z) := {[ 1 := [10; 11]; 2 := [20] ]}.

Definition sample_txPool_Pending (e : unit)
  : gmap Z (list Z) * option string := (sample_pending, None).

Definition sample_StateAt (e : unit) (root : Z)
  : option unit * option string := (Some tt, None).

Definition sample_GetBlockByNumber (e : unit) (n : Z) : Z := n.

Definition sample_GetVoterCap (st : option unit) (master voter : Z) : Z :=
  master + voter.

Definition sample_GetCandidates (st : option unit) : list Z := [3; 4].

Definition sample_GetCandidateCap (st : option unit) (c : Z) : Z := c * 10.

Definition sample_CurrentBlock (e : unit) : Z := 2000.

Definition sample_Epoch (e : unit) : Z := 900.

Definition sample_Block_Time (block : Z) : Z := 2 * block.

Definition sample_GetHeaderByNumber (e : unit) (n : Z) : option Z := None.

Definition sample_GetHeaderByHash (e : unit) (h : Z) : option Z := Some h.

Definition sample_Join (dir name : string) : string := dir +:+ "/" +:+ name.

Definition sample_ReadFile (path : string) : bytes * option string :=
  ([x01], None).

Definition sample_Unmarshal (data : bytes) (m : gmap string Z)
  : gmap string Z * option string := (m, Some "invalid character").

Definition sample_GetRewardForCheckpoint (engine e : unit) (h : option Z)
    (rCheckpoint : Z) : gmap Z unit * Z * option string :=
  ({[ 5 := tt ]}, 1, None).

Definition sample_CalculateRewardForSigner (chainReward : Z)
    (signers : gmap Z unit) (totalSigner : Z) : gmap Z Z * option string :=
  ({[ 5 := chainReward; 6 := 2 ]}, None).

Definition sample_CalculateRewardForHolders (foundation : Z)
    (st : option unit) (masternode calcReward number : Z)
  : option string * option (gmap Z Z) :=
  (None, Some {[ masternode := calcReward ]}).

(** The full node's [GetVotersRewards] on the example node: current block
    2000, epoch 900, reward checkpoint 1000, foundation wallet 7. *)
Definition sample_GetVotersRewards (masternodeAddr : Z)
    (range : list (Z * Z)) : outcome (option (gmap Z Z)) :=
  EthApiBackend_GetVotersRewards sample_CurrentBlock sample_GetBlockByNumber
    sample_StateAt (fun _ => tt) sample_Epoch (fun _ => 7) (fun _ => 1000)
    (fun _ => 250) (fun n : Z => Some n) (fun n : Z => n) (fun n : Z => n)
    (10 ^ 18) 15768000 (fun r _ _ => r) sample_GetRewardForCheckpoint
    sample_CalculateRewardForSigner sample_CalculateRewardForHolders
    sample_node masternodeAddr range.

(** * Properties *)

(** ** Big-endian byte strings *)

Lemma SetBytes_acc (b : bytes) (acc : Z) :
  fold_left (fun acc b => acc * 256 + Z.of_N (Byte.to_N b)) b acc =
  acc * 256 ^ Z.of_nat (length b) + SetBytes b.
Proof.
  unfold SetBytes. revert acc. induction b as [|x b IH]; intros acc.
  - cbn. lia.
  - cbn [fold_left length]. rewrite IH, (IH (0 * 256 + _)).
    rewrite Nat2Z.inj_succ, Z.pow_succ_r by lia. lia.
Qed.

Lemma SetBytes_app (a b : bytes) :
  SetBytes (a ++ b) = SetBytes a * 256 ^ Z.of_nat (length b) + SetBytes b.
Proof. unfold SetBytes at 1. rewrite fold_left_app. apply SetBytes_acc. Qed.

Lemma byte_to_Z_bound (x : byte) : 0 <= Z.of_N (Byte.to_N x) < 256.
Proof. pose proof (Byte.to_N_bounded x). lia. Qed.

Lemma SetBytes_bound (b : bytes) : 0 <= SetBytes b < 256 ^ Z.of_nat (length b).
Proof.
  induction b as [|x b IH] using rev_ind; [cbn; lia|].
  rewrite SetBytes_app, length_app, Nat2Z.inj_add. cbn [length].
  change (SetBytes [x]) with (0 * 256 + Z.of_N (Byte.to_N x)).
  pose proof (byte_to_Z_bound x).
  rewrite Z.pow_add_r by lia. change (256 ^ Z.of_nat 1) with 256. nia.
Qed.

Lemma byte_of_to_Z (x : Z) :
  0 <= x < 256 -> Z.of_N (Byte.to_N (byte_of x)) = x.
Proof.
  intros Hx. unfold byte_of.
  destruct (Byte.of_N (Z.to_N x)) as [b|] eqn:E.
  - apply Byte.to_of_N in E. cbn. lia.
  - apply Byte.of_N_None_iff in E. lia.
Qed.

Lemma fixed_be_length (n : nat) (x : Z) : length (fixed_be n x) = n.
Proof.
  revert x. induction n as [|n IH]; intros x; cbn; [done|].
  rewrite length_app, IH. cbn. lia.
Qed.

Lemma SetBytes_fixed_be (n : nat) (x : Z) :
  0 <= x -> SetBytes (fixed_be n x) = x mod 256 ^ Z.of_nat n.
Proof.
  revert x. induction n as [|n IH]; intros x Hx.
  - cbn. by rewrite Z.mod_1_r.
  - cbn [fixed_be]. rewrite SetBytes_app, IH by (apply Z.div_pos; lia).
    cbn [length]. change (SetBytes [byte_of (x mod 256)])
      with (0 * 256 + Z.of_N (Byte.to_N (byte_of (x mod 256)))).
    rewrite byte_of_to_Z by (apply Z.mod_pos_bound; lia).
    change (256 ^ Z.of_nat 1) with 256.
    rewrite Nat2Z.inj_succ, Z.pow_succ_r by lia.
    rewrite Z.rem_mul_r by lia. lia.
Qed.

Lemma SetBytes_strip_zeros (b : bytes) : SetBytes (strip_zeros b) = SetBytes b.
Proof.
  induction b as [|x b IH]; [done|].
  destruct x; cbn [strip_zeros]; try reflexivity. rewrite IH.
  change (x00 :: b) with ([x00] ++ b). rewrite SetBytes_app. cbn. lia.
Qed.

Lemma SetBytes_Bytes (x : Z) : 0 <= x -> SetBytes (Bytes x) = x.
Proof.
  intros Hx. unfold Bytes. rewrite SetBytes_strip_zeros, Z.abs_eq by done.
  rewrite SetBytes_fixed_be by done. apply Z.mod_small. split; [done|].
  destruct (decide (x = 0)) as [->|Hne]; [done|].
  pose proof (Z.log2_nonneg x). pose proof (Z.log2_spec x ltac:(lia)) as [_ Hlt].
  rewrite Nat2Z.inj_succ, Z2Nat.id by done.
  eapply Z.lt_le_trans; [exact Hlt|].
  change 256 with (2 ^ 8). rewrite <-Z.pow_mul_r by lia.
  apply Z.pow_le_mono_r; lia.
Qed.

Lemma BytesToHash_mod (b : bytes) : BytesToHash b = SetBytes b mod 2 ^ 256.
Proof.
  unfold BytesToHash.
  replace (SetBytes b) with
    (SetBytes (take (length b - HashLength) b ++ drop (length b - HashLength) b))
    by (by rewrite take_drop).
  rewrite SetBytes_app.
  pose proof (SetBytes_bound (drop (length b - HashLength) b)) as Hb.
  rewrite length_drop in *.
  destruct (decide (HashLength <= length b)%nat) as [Hle|Hgt].
  - replace (length b - (length b - HashLength))%nat with HashLength in * by lia.
    change (256 ^ Z.of_nat HashLength) with (2 ^ 256) in *.
    rewrite Z.add_comm, Z.mod_add by lia. by rewrite Z.mod_small.
  - replace (length b - HashLength)%nat with 0%nat in * by lia.
    rewrite take_0. cbn [SetBytes fold_left]. rewrite Z.mul_0_l, Z.add_0_l.
    rewrite Z.mod_small; [done|]. split; [lia|].
    eapply Z.lt_le_trans; [apply Hb|].
    change (2 ^ 256) with (256 ^ Z.of_nat HashLength).
    apply Z.pow_le_mono_r; unfold HashLength in *; lia.
Qed.

Lemma BigToHash_id (x : Z) : is_hash x -> BigToHash x = x.
Proof.
  intros [H0 H1]. unfold BigToHash.
  rewrite BytesToHash_mod, SetBytes_Bytes by done. by apply Z.mod_small.
Qed.

(** ** The iterator *)

Section Iterate.

Context {V : Type}.
Implicit Types (t : gmap Z V) (k : Z) (v : V).

Lemma omap_lookup_fst t (l : list Z) :
  Forall (fun k => is_Some (t !! k)) l ->
  (omap (fun k => pair k <$> t !! k) l).*1 = l.
Proof.
  induction 1 as [|k l [v Hk] _ IH]; [done|].
  cbn. rewrite Hk. cbn. by rewrite IH.
Qed.

Lemma sorted_keys_elem t k :
  k ∈ merge_sort Z.le (elements (dom t)) <-> is_Some (t !! k).
Proof. by rewrite merge_sort_Permutation, elem_of_elements, elem_of_dom. Qed.

Lemma iterate_fst t : (iterate t).*1 = merge_sort Z.le (elements (dom t)).
Proof.
  apply omap_lookup_fst, Forall_forall. intros k. by rewrite sorted_keys_elem.
Qed.

Lemma iterate_elem t k v : (k, v) ∈ iterate t <-> t !! k = Some v.
Proof.
  unfold iterate. rewrite list_elem_of_omap. split.
  - intros (k' & _ & Hk'). destruct (t !! k') eqn:E; by simplify_eq/=.
  - intros Hk. exists k. split; [apply sorted_keys_elem; eauto|].
    by rewrite Hk.
Qed.

Lemma iterate_key_elem t k : k ∈ (iterate t).*1 <-> is_Some (t !! k).
Proof. by rewrite iterate_fst, sorted_keys_elem. Qed.

Lemma iterate_NoDup t : NoDup (iterate t).*1.
Proof.
  rewrite iterate_fst, merge_sort_Permutation. apply NoDup_elements.
Qed.

Lemma iterate_le t : StronglySorted Z.le (iterate t).*1.
Proof. rewrite iterate_fst. apply StronglySorted_merge_sort; apply _. Qed.

Lemma iterate_nil t : iterate t = [] <-> t = ∅.
Proof.
  split.
  - intros E. apply map_empty. intros k.
    destruct (t !! k) as [v|] eqn:Hk; [|done].
    apply iterate_elem in Hk. rewrite E in Hk. by apply elem_of_nil in Hk.
  - intros ->. unfold iterate. by rewrite dom_empty_L, elements_empty.
Qed.

End Iterate.

Lemma le_NoDup_lt (l : list Z) :
  StronglySorted Z.le l -> NoDup l -> StronglySorted Z.lt l.
Proof.
  induction 1 as [|x l _ IH Hx]; intros Hnd; [constructor|].
  apply NoDup_cons in Hnd as [Hin Hnd]. constructor; [by apply IH|].
  rewrite Forall_forall in Hx |- *. intros y Hy.
  specialize (Hx y Hy). assert (x <> y) by (by intros ->). lia.
Qed.

Lemma iterate_lt {V} (t : gmap Z V) : StronglySorted Z.lt (iterate t).*1.
Proof. apply le_NoDup_lt; [apply iterate_le | apply iterate_NoDup]. Qed.

Lemma iterate_fmap {A B} (f : A -> B) (m : gmap Z A) :
  iterate (f <$> m) = prod_map id f <$> iterate m.
Proof.
  unfold iterate. rewrite dom_fmap_L.
  induction (merge_sort Z.le (elements (dom m))) as [|k l IH]; [done|].
  cbn. rewrite lookup_fmap. destruct (m !! k); cbn; by rewrite IH.
Qed.

(** ** The loops of [dump.go] *)

Section DumpFacts.

Variable DecodeBytes : bytes -> option orderList.
Implicit Types (self : TomoXStateDB) (it : list (Z * bytes)).

Lemma fold_left_snoc_map {A B} (f : A -> B) (l : list A) (acc : list B) :
  fold_left (fun r x => r ++ [f x]) l acc = acc ++ (f <$> l).
Proof.
  revert acc. induction l as [|x l IH]; intros acc; cbn.
  - by rewrite app_nil_r.
  - by rewrite IH, <-app_assoc.
Qed.

Lemma DumpAskTrie_loop_spec self orderBook it result :
  DumpAskTrie_loop DecodeBytes self orderBook it result =
  match dumpEntries DecodeBytes self orderBook it with
  | inl r => inl (result ++ r)
  | inr e => inr e
  end.
Proof.
  revert result. induction it as [|[k v] it IH]; intros result; cbn.
  - by rewrite app_nil_r.
  - destruct (DecodeBytes v) as [data|]; [|done].
    rewrite IH. unfold getTrie, newStateOrderList; cbn.
    rewrite fold_left_snoc_map.
    destruct (dumpEntries _ _ _ it); [|done].
    by rewrite <-app_assoc.
Qed.

Lemma DumpBidTrie_loop_spec self orderBook it result :
  DumpBidTrie_loop DecodeBytes self orderBook it result =
  match dumpEntries DecodeBytes self orderBook it with
  | inl r => inl (result ++ r)
  | inr e => inr e
  end.
Proof.
  revert result. induction it as [|[k v] it IH]; intros result; cbn.
  - by rewrite app_nil_r.
  - destruct (DecodeBytes v) as [data|]; [|done].
    rewrite IH. unfold getTrie, newStateOrderList; cbn.
    rewrite fold_left_snoc_map.
    destruct (dumpEntries _ _ _ it); [|done].
    by rewrite <-app_assoc.
Qed.

Lemma DumpAskTrie_spec self orderBook ex :
  getStateExchangeObject self orderBook = Some ex ->
  DumpAskTrie DecodeBytes self orderBook =
  dumpEntries DecodeBytes self orderBook (NodeIterator (asksTrie ex)).
Proof.
  intros Hex. unfold DumpAskTrie. rewrite Hex, DumpAskTrie_loop_spec.
  unfold getAsksTrie. by destruct (dumpEntries _ _ _ _).
Qed.

Lemma DumpBidTrie_spec self orderBook ex :
  getStateExchangeObject self orderBook = Some ex ->
  DumpBidTrie DecodeBytes self orderBook =
  dumpEntries DecodeBytes self orderBook (NodeIterator (bidsTrie ex)).
Proof.
  intros Hex. unfold DumpBidTrie. rewrite Hex, DumpBidTrie_loop_spec.
  unfold getBidsTrie. by destruct (dumpEntries _ _ _ _).
Qed.

(** The loop succeeds exactly when every value decodes, and then emits one
    entry per pair. *)
Lemma dumpEntries_ok self orderBook it :
  Forall (fun kv => is_Some (DecodeBytes kv.2)) it ->
  exists datas,
    Forall2 (fun kv data => DecodeBytes kv.2 = Some data) it datas /\
    dumpEntries DecodeBytes self orderBook it =
      inl (zip_with (fun kv data => dumpEntry self kv.1 data) it datas).
Proof.
  induction 1 as [|kv it [data Hd] _ (datas & HF & IH)].
  - exists []. by split; [constructor|].
  - exists (data :: datas). split; [by constructor|].
    cbn. by rewrite Hd, IH.
Qed.

Lemma dumpEntries_inl self orderBook it snap :
  dumpEntries DecodeBytes self orderBook it = inl snap ->
  Forall2 (fun kv e => exists data,
             DecodeBytes kv.2 = Some data /\ e = dumpEntry self kv.1 data)
          it snap.
Proof.
  revert snap. induction it as [|kv it IH]; intros snap; cbn.
  - intros [= <-]. constructor.
  - destruct (DecodeBytes kv.2) as [data|] eqn:Hd; [|done].
    destruct (dumpEntries _ _ _ it) as [r|]; [|done].
    intros [= <-]. constructor; eauto.
Qed.

Lemma dumpEntries_inl_decodes self orderBook it snap :
  dumpEntries DecodeBytes self orderBook it = inl snap ->
  Forall (fun kv => is_Some (DecodeBytes kv.2)) it.
Proof.
  revert snap. induction it as [|kv it IH]; intros snap; cbn; [by constructor|].
  destruct (DecodeBytes kv.2) as [data|] eqn:Hd; [|done].
  destruct (dumpEntries _ _ _ it) as [r|]; [|done].
  intros _. constructor; eauto.
Qed.

(** The loop stops at the first value that does not decode. *)
Lemma dumpEntries_first_failure self orderBook it1 k v it2 :
  Forall (fun kv => is_Some (DecodeBytes kv.2)) it1 ->
  DecodeBytes v = None ->
  dumpEntries DecodeBytes self orderBook (it1 ++ (k, v) :: it2) =
    inr (ErrFailDecodeOrderList orderBook (SetBytes (GetKey self k))).
Proof.
  intros Hit1 Hv. induction Hit1 as [|kv it1 [data Hd] _ IH]; cbn.
  - by rewrite Hv.
  - by rewrite Hd, IH.
Qed.

Lemma dumpEntries_inr self orderBook it e :
  dumpEntries DecodeBytes self orderBook it = inr e ->
  exists k v, (k, v) ∈ it /\ DecodeBytes v = None /\
    e = ErrFailDecodeOrderList orderBook (SetBytes (GetKey self k)).
Proof.
  induction it as [|[k v] it IH]; cbn; [done|].
  destruct (DecodeBytes v) as [data|] eqn:Hd.
  - destruct (dumpEntries _ _ _ it) as [r|e']; [done|].
    intros [= <-]. destruct IH as (k' & v' & Hin & Hv' & ->); [done|].
    exists k', v'. split; [by right|done].
  - intros [= <-]. exists k, v. split; [by left|done].
Qed.

End DumpFacts.

(** ** Errors of a dump *)

Section DumpErrors.

Variable DecodeBytes : bytes -> option orderList.
Implicit Types (self : TomoXStateDB) (side : Side).

Lemma DumpTrie_spec side self orderBook ex :
  getStateExchangeObject self orderBook = Some ex ->
  DumpTrie DecodeBytes side self orderBook =
  dumpEntries DecodeBytes self orderBook (NodeIterator (sideTrie side ex)).
Proof.
  destruct side; cbn; [apply DumpAskTrie_spec | apply DumpBidTrie_spec].
Qed.

Lemma DumpTrie_absent side self orderBook :
  getStateExchangeObject self orderBook = None ->
  DumpTrie DecodeBytes side self orderBook = inr (ErrOrderBookNotFound orderBook).
Proof.
  intros Hex. destruct side; cbn; unfold DumpAskTrie, DumpBidTrie; by rewrite Hex.
Qed.

Lemma DumpTrie_present_error side self orderBook ex e :
  getStateExchangeObject self orderBook = Some ex ->
  DumpTrie DecodeBytes side self orderBook = inr e ->
  ~ is_not_found e.
Proof.
  intros Hex. rewrite (DumpTrie_spec _ _ _ _ Hex).
  intros (k & v & _ & _ & ->)%dumpEntries_inr. by intros [].
Qed.

(** C2. A dump fails with the not-found error exactly when no exchange
    object exists under the queried order-book identifier; for a book that
    exists, the dump of a side that holds no price level is the empty
    snapshot and no error. *)
Theorem dump_not_found_iff side self orderBook :
  ((exists e, DumpTrie DecodeBytes side self orderBook = inr e /\ is_not_found e)
   <-> getStateExchangeObject self orderBook = None) /\
  (getStateExchangeObject self orderBook = None ->
   DumpTrie DecodeBytes side self orderBook = inr (ErrOrderBookNotFound orderBook)) /\
  (forall ex, getStateExchangeObject self orderBook = Some ex ->
   sideTrie side ex = ∅ ->
   DumpTrie DecodeBytes side self orderBook = inl []).
Proof.
  split; [|split].
  - split.
    + intros (e & He & Hnf).
      destruct (getStateExchangeObject self orderBook) as [ex|] eqn:Hex; [|done].
      by destruct (DumpTrie_present_error _ _ _ _ _ Hex He).
    + intros Hex. exists (ErrOrderBookNotFound orderBook).
      by rewrite DumpTrie_absent.
  - apply DumpTrie_absent.
  - intros ex Hex Hempty. rewrite (DumpTrie_spec _ _ _ _ Hex), Hempty.
    unfold NodeIterator. by rewrite (proj2 (iterate_nil _)).
Qed.

(** The entries before a key in the iteration have smaller keys. *)
Lemma iterate_split_lt {V} (t : gmap Z V) k v :
  t !! k = Some v ->
  exists it1 it2, iterate t = it1 ++ (k, v) :: it2 /\
    Forall (fun kv => kv.1 < k) it1.
Proof.
  intros Hk%iterate_elem. apply list_elem_of_split in Hk as (it1 & it2 & E).
  exists it1, it2. split; [done|].
  pose proof (iterate_lt t) as Hs. rewrite E, fmap_app, fmap_cons in Hs.
  apply StronglySorted_app in Hs as (Hs & _ & _).
  apply Forall_forall. intros [k' v'] Hin. cbn.
  apply Hs; [|by left]. apply list_elem_of_fmap. by exists (k', v').
Qed.



(** C8. The volume of every emitted price level is the aggregate volume
    decoded from the stored value of its key, whatever the order queue
    beneath it holds. *)
Theorem dump_volume_is_stored_aggregate side self orderBook ex snap :
  getStateExchangeObject self orderBook = Some ex ->
  DumpTrie DecodeBytes side self orderBook = inl snap ->
  Forall2 (fun kv e => exists data,
             DecodeBytes kv.2 = Some data /\ Volume e.2 = ol_Volume data)
          (NodeIterator (sideTrie side ex)) snap.
Proof.
  intros Hex. rewrite (DumpTrie_spec _ _ _ _ Hex). intros E%dumpEntries_inl.
  eapply Forall2_impl; [exact E|].
  intros kv e (data & Hd & ->). by exists data.
Qed.

End DumpErrors.

(** ** Ascending order *)

Section DumpOrder.

Variable DecodeBytes : bytes -> option orderList.
Implicit Types (self : TomoXStateDB) (side : Side).

Lemma dumpOrders_keys self (queue : Trie) :
  resolves self queue -> (dumpOrders self queue).*1 = (NodeIterator queue).*1.
Proof.
  intros Hres. unfold dumpOrders. rewrite <-list_fmap_compose.
  apply list_fmap_ext. intros _ [k v] Hin%list_elem_of_lookup_2%iterate_elem.
  cbn. by apply (Hres k v).
Qed.


Lemma GetKey_ext self1 self2 k :
  preimages self1 = preimages self2 -> GetKey self1 k = GetKey self2 k.
Proof. unfold GetKey. by intros ->. Qed.

Lemma dumpEntries_ext self1 self2 ob1 ob2 it :
  preimages self1 = preimages self2 ->
  db self1 = db self2 ->
  match dumpEntries DecodeBytes self1 ob1 it,
        dumpEntries DecodeBytes self2 ob2 it with
  | inl a, inl b => a = b
  | inr e1, inr e2 =>
      exists price, e1 = ErrFailDecodeOrderList ob1 price /\
                    e2 = ErrFailDecodeOrderList ob2 price
  | _, _ => False
  end.
Proof.
  intros Hp Hd. induction it as [|[k v] it IH]; cbn; [done|].
  rewrite (GetKey_ext _ _ k Hp).
  destruct (DecodeBytes v) as [data|]; [|eauto].
  destruct (dumpEntries _ self1 _ it) as [a|e1],
           (dumpEntries _ self2 _ it) as [b|e2]; try done.
  subst b. f_equal. unfold dumpEntry, dumpOrders.
  rewrite (GetKey_ext _ _ k Hp), Hd. do 2 f_equal.
  apply list_fmap_ext. intros _ kv _. by rewrite (GetKey_ext _ _ _ Hp).
Qed.

(** C9, as the code has it. When the ask trie of one book and the bid trie
    of another hold the same pairs, in states with the same preimages and
    the same stored order queues, [DumpAskTrie] on the first and
    [DumpBidTrie] on the second return equal snapshots, or decode errors
    for the same price, each carrying the identifier it was queried with;
    the results are equal when the two identifiers are. *)
Theorem dump_ask_bid_agree self1 self2 ob1 ob2 ex1 ex2 :
  getStateExchangeObject self1 ob1 = Some ex1 ->
  getStateExchangeObject self2 ob2 = Some ex2 ->
  asksTrie ex1 = bidsTrie ex2 ->
  preimages self1 = preimages self2 ->
  db self1 = db self2 ->
  match DumpAskTrie DecodeBytes self1 ob1,
        DumpBidTrie DecodeBytes self2 ob2 with
  | inl a, inl b => a = b
  | inr e1, inr e2 =>
      exists price, e1 = ErrFailDecodeOrderList ob1 price /\
                    e2 = ErrFailDecodeOrderList ob2 price
  | _, _ => False
  end /\
  (ob1 = ob2 ->
   DumpAskTrie DecodeBytes self1 ob1 = DumpBidTrie DecodeBytes self2 ob2).
Proof.
  intros Hex1 Hex2 Ht Hp Hd.
  rewrite (DumpAskTrie_spec _ _ _ _ Hex1), (DumpBidTrie_spec _ _ _ _ Hex2), Ht.
  pose proof (dumpEntries_ext self1 self2 ob1 ob2
                (NodeIterator (bidsTrie ex2)) Hp Hd) as H.
  split; [exact H|]. intros <-.
  destruct (dumpEntries _ self1 _ _), (dumpEntries _ self2 _ _); try done.
  - by subst.
  - by destruct H as (price & -> & ->).
Qed.

End DumpOrder.

(** ** The ordered trie *)

(** C5. [TryGetBestLeftKeyAndValue] and [TryGetBestRightKeyAndValue] are
    absent exactly on the empty trie; on any other trie they return stored
    entries, the key of the left one being at most, and the key of the
    right one at least, every stored key. *)
Theorem best_left_right (t : Trie) :
  ((TryGetBestLeftKeyAndValue t).1 = None <-> t = ∅) /\
  ((TryGetBestRightKeyAndValue t).1 = None <-> t = ∅) /\
  (forall kl vl, (TryGetBestLeftKeyAndValue t).1 = Some (kl, vl) ->
     t !! kl = Some vl /\ forall k, is_Some (t !! k) -> kl <= k) /\
  (forall kr vr, (TryGetBestRightKeyAndValue t).1 = Some (kr, vr) ->
     t !! kr = Some vr /\ forall k, is_Some (t !! k) -> k <= kr).
Proof.
  unfold TryGetBestLeftKeyAndValue, TryGetBestRightKeyAndValue, NodeIterator.
  cbn. pose proof (iterate_le t) as Hs. repeat split.
  - intros H%head_None. by apply iterate_nil.
  - by intros ->%iterate_nil.
  - intros H%last_None. by apply iterate_nil.
  - by intros ->%iterate_nil.
  - apply iterate_elem. by apply head_Some_elem_of.
  - intros k Hk%iterate_key_elem.
    destruct (iterate t) as [|kv it] eqn:E; [done|]. simplify_eq/=.
    apply StronglySorted_cons in Hs as [Hs _].
    apply elem_of_cons in Hk as [->|Hk]; [lia|].
    rewrite Forall_forall in Hs. by apply Hs.
  - apply iterate_elem. by apply last_Some_elem_of.
  - intros k Hk%iterate_key_elem.
    apply last_Some in H as [it E]. rewrite E, fmap_app in Hs, Hk.
    apply StronglySorted_app in Hs as (Hs & _ & _).
    apply elem_of_app in Hk as [Hk|Hk].
    + apply Hs; [done|]. cbn. by left.
    + cbn in Hk. apply list_elem_of_singleton in Hk as ->. lia.
Qed.

(** C7. [TryDelete] reports no error; it removes the key when it is stored
    and changes nothing when it is not; every other key keeps its value. *)
Theorem delete_contract (t : Trie) (k : Z) :
  (TryDelete t k).2 = None /\
  (TryDelete t k).1 !! k = None /\
  (forall k', k' <> k -> (TryDelete t k).1 !! k' = t !! k') /\
  (t !! k = None -> (TryDelete t k).1 = t).
Proof.
  unfold TryDelete. cbn. repeat split.
  - apply lookup_delete_eq.
  - intros k' Hne. by apply lookup_delete_ne.
  - apply delete_id.
Qed.

(** ** The light-client backend *)

(** C10. On the light-client backend [SendOrderTx] returns nil and leaves
    the backend as it was, whatever the order transaction, and
    [GetOrderNonce] returns nonce 0 with the error "cannot find tomox
    service", whatever the address. *)
Theorem les_order_entry_points_are_stubs
    (Context OrderTransaction LightEthereum Oracle : Type)
    (b : LesApiBackend LightEthereum Oracle) (ctx : Context)
    (signedTx : OrderTransaction) (address : Z) :
  LesApiBackend_SendOrderTx Context OrderTransaction LightEthereum Oracle
    b ctx signedTx = (b, None) /\
  LesApiBackend_GetOrderNonce LightEthereum Oracle b address =
    (0, Some "cannot find tomox service").
Proof. done. Qed.

(** For comparison: the light client forwards a plain transaction to its
    pool, and the full node forwards an order transaction to its order
    pool; both return what the pool returns. *)
Lemma forwarding_entry_points
    (Context Transaction OrderTransaction LightEthereum Ethereum Oracle : Type)
    (txPool_Add :
       LightEthereum -> Context -> Transaction -> LightEthereum * option string)
    (orderPool_AddLocal :
       Ethereum -> OrderTransaction -> Ethereum * option string)
    (lb : LesApiBackend LightEthereum Oracle) (eb : EthApiBackend Ethereum Oracle)
    (ctx : Context) (tx : Transaction) (otx : OrderTransaction) :
  (LesApiBackend_SendTx Context Transaction LightEthereum Oracle txPool_Add
     lb ctx tx).2 = (txPool_Add (les_eth _ _ lb) ctx tx).2 /\
  (EthApiBackend_SendOrderTx Context OrderTransaction Ethereum Oracle
     orderPool_AddLocal eb ctx otx).2 = (orderPool_AddLocal (eth_eth _ _ eb) otx).2.
Proof.
  unfold LesApiBackend_SendTx, EthApiBackend_SendOrderTx.
  by destruct (txPool_Add _ _ _), (orderPool_AddLocal _ _).
Qed.

(** ** The data model *)

Lemma iterate_NoDup_pairs {V} (m : gmap Z V) : NoDup (iterate m).
Proof. eapply NoDup_fmap_1, iterate_NoDup. Qed.

Lemma iterate_perm {V} (m : gmap Z V) : iterate m ≡ₚ map_to_list m.
Proof.
  apply NoDup_Permutation; [apply iterate_NoDup_pairs|apply NoDup_map_to_list|].
  intros [k v]. by rewrite iterate_elem, elem_of_map_to_list.
Qed.

Lemma list_to_map_iterate {V} (m : gmap Z V) : list_to_map (iterate m) = m.
Proof.
  apply map_eq. intros k. apply option_eq. intros v.
  rewrite <-elem_of_list_to_map by apply iterate_NoDup. apply iterate_elem.
Qed.

Lemma sum_snd_perm (l1 l2 : list (Z * Z)) :
  l1 ≡ₚ l2 ->
  foldr (fun kv acc => kv.2 + acc) 0 l1 = foldr (fun kv acc => kv.2 + acc) 0 l2.
Proof. induction 1; cbn; lia. Qed.

Lemma total_empty : total ∅ = 0.
Proof. unfold total. by rewrite (proj2 (iterate_nil _)). Qed.

Lemma total_insert (q : gmap Z Z) o v :
  q !! o = None -> total (<[o := v]> q) = v + total q.
Proof.
  intros Ho. unfold total.
  rewrite (sum_snd_perm _ ((o, v) :: iterate q)); [done|].
  rewrite !iterate_perm. by apply map_to_list_insert.
Qed.

Lemma total_delete (q : gmap Z Z) o v :
  q !! o = Some v -> total (delete o q) = total q - v.
Proof.
  intros Ho. rewrite <-(insert_delete_id q o v) at 2 by done.
  rewrite total_insert by apply lookup_delete_eq. lia.
Qed.

Lemma queue_wf_total (q : gmap Z Z) :
  queue_wf q -> 0 <= total q /\ (total q = 0 -> q = ∅).
Proof.
  intros Hwf. unfold total.
  assert (Forall (fun kv => 0 < kv.2) (iterate q)) as Hpos.
  { apply Forall_forall. intros [o v] Hin%iterate_elem. by apply (Hwf o v). }
  destruct (iterate q) as [|kv l] eqn:E.
  - split; [done|]. intros _. by apply iterate_nil.
  - assert (0 <= foldr (fun kv acc => kv.2 + acc) 0 l).
    { apply Forall_cons in Hpos as [_ Hl]. clear E.
      induction Hl as [|x l Hx _ IH]; cbn; lia. }
    apply Forall_cons in Hpos as [Hkv _]. cbn. lia.
Qed.

Lemma queue_wf_delete (q : gmap Z Z) o : queue_wf q -> queue_wf (delete o q).
Proof. apply map_Forall_delete. Qed.

Lemma queue_wf_insert (q : gmap Z Z) o v :
  queue_wf q -> is_hash o -> 0 < v -> queue_wf (<[o := v]> q).
Proof. intros. by apply map_Forall_insert_2. Qed.

Lemma queue_wf_empty : queue_wf ∅.
Proof. apply map_Forall_empty. Qed.

Lemma queue_trie_lookup (q : gmap Z Z) o :
  queue_trie q !! o = Bytes <$> q !! o.
Proof. apply lookup_fmap. Qed.

Lemma aggregate_queue_trie (q : gmap Z Z) :
  queue_wf q -> aggregate (queue_trie q) = total q.
Proof.
  intros Hwf. unfold aggregate, total, NodeIterator, queue_trie.
  rewrite iterate_fmap.
  assert (Forall (fun kv => 0 < kv.2) (iterate q)) as Hpos.
  { apply Forall_forall. intros [o v] Hin%iterate_elem. by apply (Hwf o v). }
  induction Hpos as [|[o v] l Hv _ IH]; [done|].
  rewrite fmap_cons. cbn [fold_right prod_map snd fst] in *.
  rewrite IH, SetBytes_Bytes; lia.
Qed.

Lemma book_level_wf (a : Book) p :
  book_wf a -> queue_wf (default ∅ (a !! p)).
Proof.
  intros Hwf. destruct (a !! p) as [q|] eqn:Hp; cbn.
  - by destruct (Hwf p q Hp) as (_ & _ & Hq).
  - apply queue_wf_empty.
Qed.

Lemma book_wf_write (a : Book) p (q : gmap Z Z) :
  book_wf a -> is_hash p -> queue_wf q ->
  book_wf (if total q =? 0 then delete p a else <[p := q]> a).
Proof.
  intros Hwf Hp Hq. destruct (Z.eqb_spec (total q) 0) as [E|E].
  - by apply map_Forall_delete.
  - apply map_Forall_insert_2; [|done]. split; [done|]. split; [|done].
    intros ->. by rewrite total_empty in E.
Qed.

Lemma book_upsert_wf (a : Book) p o d :
  book_wf a -> is_hash p -> is_hash o -> book_wf (book_upsert a p o d).
Proof.
  intros Hwf Hp Ho. unfold book_upsert.
  pose proof (book_level_wf a p Hwf) as Hq.
  apply book_wf_write; [done..|].
  destruct (Z.leb_spec (default 0 (default ∅ (a !! p) !! o) + d) 0).
  - by apply queue_wf_delete.
  - apply queue_wf_insert; [done..|lia].
Qed.

Lemma book_remove_wf (a : Book) p o :
  book_wf a -> is_hash p -> book_wf (book_remove a p o).
Proof.
  intros Hwf Hp. unfold book_remove.
  destruct (a !! p) as [q|] eqn:Hq; [|done].
  destruct (q !! o) as [v|] eqn:Hv; [|done].
  rewrite <-(total_delete q o v) by done.
  apply book_wf_write; [done..|]. apply queue_wf_delete.
  by destruct (Hwf p q Hq) as (_ & _ & ?).
Qed.

Lemma book_apply_wf (a : Book) (o : op) :
  book_wf a -> op_in_range o -> book_wf (book_apply a o).
Proof.
  destruct o; cbn; intros Hwf [? ?];
    [by apply book_upsert_wf | by apply book_remove_wf].
Qed.

(** *** Replaying a snapshot on the data model *)

Lemma book_upsert_fresh (a : Book) p o v :
  book_wf a -> is_hash o -> 0 < v ->
  default ∅ (a !! p) !! o = None ->
  book_upsert a p o v = <[p := <[o := v]> (default ∅ (a !! p))]> a.
Proof.
  intros Hwf Ho Hv Hfresh. unfold book_upsert. rewrite Hfresh. cbn [default].
  destruct (Z.leb_spec (0 + v) 0) as [|_]; [lia|].
  rewrite Z.add_0_l, total_insert by done.
  pose proof (queue_wf_total _ (book_level_wf a p Hwf)) as [Hnn _].
  destruct (Z.eqb_spec (v + total (default ∅ (a !! p))) 0); [lia|done].
Qed.

Lemma replay_queue p (l : list (Z * Z)) : forall a : Book,
  book_wf a -> is_hash p -> NoDup l.*1 ->
  Forall (fun ov => is_hash ov.1 /\ 0 < ov.2) l ->
  (forall ov, ov ∈ l -> default ∅ (a !! p) !! ov.1 = None) ->
  l <> [] ->
  foldl book_apply a ((fun ov => Upsert p ov.1 ov.2) <$> l) =
    <[p := list_to_map l ∪ default ∅ (a !! p)]> a.
Proof.
  induction l as [|[o v] l IH]; intros a Hwf Hp Hnd Hl Hfresh Hne; [done|].
  clear Hne. rewrite fmap_cons in Hnd. apply NoDup_cons in Hnd as [Hnotin Hnd].
  apply Forall_cons in Hl as [[Ho Hv] Hl].
  rewrite fmap_cons. cbn [foldl book_apply fst snd].
  rewrite book_upsert_fresh; [|done..|apply (Hfresh (o, v)); by left].
  set (q0 := default ∅ (a !! p)) in *.
  assert (book_wf (<[p := <[o := v]> q0]> a)) as Hwf1.
  { apply map_Forall_insert_2; [|done]. split; [done|].
    split; [apply insert_non_empty|].
    apply queue_wf_insert; [by apply book_level_wf|done..]. }
  assert (default ∅ (<[p := <[o := v]> q0]> a !! p) = <[o := v]> q0) as Hd
    by (by rewrite lookup_insert_eq).
  change (list_to_map ((o, v) :: l)) with (<[o := v]> (list_to_map l : gmap Z Z)).
  rewrite <-insert_union_l.
  destruct (decide (l = [])) as [->|Hne].
  { cbn [fmap list_fmap foldl list_to_map foldr].
    by rewrite (left_id_L ∅ (∪)). }
  rewrite IH; [|done..| |done].
  - rewrite Hd, insert_insert_eq. f_equal. symmetry. apply insert_union_r.
    by apply not_elem_of_list_to_map.
  - intros ov Hin. rewrite Hd, lookup_insert_ne.
    + apply Hfresh. by right.
    + intros Heq. apply Hnotin. apply list_elem_of_fmap. by exists ov.
Qed.

Lemma replay_levels (L : list (Z * gmap Z Z)) : forall a : Book,
  book_wf a -> NoDup L.*1 ->
  Forall (fun pq => is_hash pq.1 /\ pq.2 <> ∅ /\ queue_wf pq.2) L ->
  (forall pq, pq ∈ L -> a !! pq.1 = None) ->
  foldl book_apply a
    (L ≫= (fun pq => (fun ov => Upsert pq.1 ov.1 ov.2) <$> iterate pq.2)) =
    list_to_map L ∪ a.
Proof.
  induction L as [|[p q] L IH]; intros a Hwf Hnd HL Hfresh.
  - cbn. by rewrite (left_id_L ∅ (∪)).
  - rewrite fmap_cons in Hnd. apply NoDup_cons in Hnd as [Hnotin Hnd].
    apply Forall_cons in HL as [(Hp & Hq & Hqwf) HL]. cbn [fst snd] in Hp, Hq, Hqwf, Hnotin.
    assert (a !! p = None) as Hap by (apply (Hfresh (p, q)); by left).
    rewrite bind_cons, foldl_app. cbn [fst snd].
    rewrite replay_queue; [|done..|apply iterate_NoDup| | |].
    + rewrite Hap. cbn [default].
      rewrite (right_id_L ∅ (∪)), list_to_map_iterate.
      rewrite IH; [|by apply map_Forall_insert_2|done..|].
      * change (list_to_map ((p, q) :: L))
          with (<[p := q]> (list_to_map L : Book)).
        rewrite <-insert_union_l.
        symmetry. apply insert_union_r. by apply not_elem_of_list_to_map.
      * intros pq Hin. rewrite lookup_insert_ne; [by apply Hfresh; right|].
        intros Heq. apply Hnotin. apply list_elem_of_fmap. by exists pq.
    + apply Forall_forall. intros [o v] Hin%iterate_elem. by apply (Hqwf o v).
    + intros ov _. by rewrite Hap.
    + by intros ?%iterate_nil.
Qed.

Lemma triples_book_snapshot (a : Book) :
  triples (book_snapshot a) =
  iterate a ≫= (fun pq => (fun ov => Upsert pq.1 ov.1 ov.2) <$> iterate pq.2).
Proof.
  unfold triples, book_snapshot.
  induction (iterate a) as [|pq l IH]; [done|].
  rewrite fmap_cons, !bind_cons, IH. done.
Qed.

Lemma book_wf_iterate (a : Book) :
  book_wf a ->
  Forall (fun pq => is_hash pq.1 /\ pq.2 <> ∅ /\ queue_wf pq.2) (iterate a).
Proof.
  intros Hwf. apply Forall_forall. intros [p q] Hin%iterate_elem.
  by apply (Hwf p q).
Qed.

(** Replaying the triples of the snapshot of a book into the empty book
    gives the book back. *)
Lemma replay_book_snapshot (a : Book) :
  book_wf a -> foldl book_apply ∅ (triples (book_snapshot a)) = a.
Proof.
  intros Hwf. rewrite triples_book_snapshot, replay_levels.
  - by rewrite (right_id_L ∅ (∪)), list_to_map_iterate.
  - apply map_Forall_empty.
  - apply iterate_NoDup.
  - by apply book_wf_iterate.
  - intros pq _. apply lookup_empty.
Qed.

Lemma triples_in_range (a : Book) :
  book_wf a -> Forall op_in_range (triples (book_snapshot a)).
Proof.
  intros Hwf. rewrite triples_book_snapshot.
  apply Forall_bind. eapply Forall_impl; [by apply book_wf_iterate|].
  intros [p q] (Hp & _ & Hq). apply Forall_fmap, Forall_forall.
  intros [o v] Hin%iterate_elem. cbn. split; [done|]. by apply (Hq o v).
Qed.

(** ** The stored tries against the data model *)

Section Refinement.

Variable DecodeBytes : bytes -> option orderList.
Variable EncodeToBytes : orderList -> bytes.
Variable rootDigest : Trie -> Z.

(** The codec decodes what it encoded, for the values the write path
    stores, and a root digest is a hash. *)
Hypothesis decode_encode : forall x,
  0 <= ol_Volume x -> is_hash (ol_Root x) ->
  DecodeBytes (EncodeToBytes x) = Some x.
Hypothesis rootDigest_hash : forall t, is_hash (rootDigest t).

Implicit Types (self : TomoXStateDB) (a : Book) (q : gmap Z Z).

Lemma decode_level q :
  queue_wf q ->
  DecodeBytes (level_value EncodeToBytes rootDigest q) =
    Some {| ol_Volume := total q; ol_Root := rootDigest (queue_trie q) |}.
Proof.
  intros Hwf. apply decode_encode; cbn; [by apply queue_wf_total|].
  apply rootDigest_hash.
Qed.

Lemma registered_GetKey self k : registered self k -> GetKey self k = Bytes k.
Proof. unfold registered, GetKey. by intros ->. Qed.

Lemma dumpOrders_queue self q :
  queue_wf q ->
  (forall o v, q !! o = Some v -> registered self o) ->
  dumpOrders self (queue_trie q) = iterate q.
Proof.
  intros Hwf Hreg. unfold dumpOrders, NodeIterator, queue_trie.
  rewrite iterate_fmap, <-list_fmap_compose.
  rewrite <-(list_fmap_id (iterate q)) at 2. apply list_fmap_ext.
  intros _ [o v] Hin%list_elem_of_lookup_2%iterate_elem.
  unfold compose, prod_map. cbn [fst snd id].
  destruct (Hwf o v Hin) as [[Ho _] Hv].
  rewrite (registered_GetKey _ _ (Hreg o v Hin)), !SetBytes_Bytes by lia. done.
Qed.

(** The dump of a state that stores a book is the snapshot of the book. *)
Lemma dump_represents self bookId a :
  represents EncodeToBytes rootDigest self bookId a ->
  book_wf a ->
  DumpAskTrie DecodeBytes self bookId = inl (book_snapshot a).
Proof.
  intros [(ex & Hex & Hasks) Hst] Hwf.
  rewrite (DumpAskTrie_spec _ _ _ _ Hex), Hasks.
  unfold NodeIterator, book_snapshot. rewrite iterate_fmap.
  assert (Forall (fun pq => a !! pq.1 = Some pq.2) (iterate a)) as Hall.
  { apply Forall_forall. by intros [p q] Hin%iterate_elem. }
  induction Hall as [|[p q] l Hpq _ IH]; [done|].
  cbn in Hpq. destruct (Hwf p q Hpq) as (Hp & _ & Hq).
  destruct (Hst p q Hpq) as (Hdb & Hrp & Hro).
  rewrite !fmap_cons. cbn [dumpEntries prod_map fst snd].
  rewrite decode_level, IH by done. do 2 f_equal.
  unfold dumpEntry, id. rewrite (registered_GetKey _ _ Hrp).
  fold (BigToHash p). rewrite BigToHash_id, SetBytes_Bytes by (done || apply Hp).
  cbn [ol_Volume ol_Root]. rewrite Hdb. cbn [default].
  by rewrite dumpOrders_queue.
Qed.

Lemma registered_insert (reg : gmap Z bytes) k0 k :
  reg !! k = Some (Bytes k) -> <[k0 := Bytes k0]> reg !! k = Some (Bytes k).
Proof.
  intros Hk. destruct (decide (k0 = k)) as [->|Hne].
  - apply lookup_insert_eq.
  - by rewrite lookup_insert_ne.
Qed.

(** Writing a queue back keeps the state a store of the book with the
    level replaced, or deleted when the queue sums to 0. *)
Lemma writeLevel_represents self bookId ex a p q reg :
  getStateExchangeObject self bookId = Some ex ->
  asksTrie ex = level_value EncodeToBytes rootDigest <$> a ->
  (forall p0 q0, a !! p0 = Some q0 ->
     db self !! (p0, rootDigest (queue_trie q0)) = Some (queue_trie q0) /\
     registered self p0 /\
     forall o v, q0 !! o = Some v -> registered self o) ->
  is_hash p ->
  (forall k, registered self k -> reg !! k = Some (Bytes k)) ->
  (forall o v, q !! o = Some v -> reg !! o = Some (Bytes o)) ->
  represents EncodeToBytes rootDigest
    (writeLevel EncodeToBytes rootDigest self bookId Ask ex p (queue_trie q)
       (total q) reg)
    bookId (if total q =? 0 then delete p a else <[p := q]> a).
Proof.
  intros Hex Hasks Hst Hp Hreg Hq. unfold writeLevel.
  rewrite (BigToHash_id p Hp). cbn [sideTrie setSideTrie].
  destruct (Z.eqb_spec (total q) 0) as [E|E].
  - split.
    + eexists. split; [apply lookup_insert_eq|].
      cbn [asksTrie]. by rewrite Hasks, fmap_delete.
    + intros p0 q0 [Hne Hp0]%lookup_delete_Some.
      destruct (Hst p0 q0 Hp0) as (Hdb & Hrp & Hro).
      cbn [db preimages]. unfold registered. cbn [preimages].
      split; [|split].
      * rewrite lookup_insert_ne; [done|]. congruence.
      * by apply Hreg.
      * intros o v Ho. apply Hreg. by apply (Hro o v).
  - split.
    + eexists. split; [apply lookup_insert_eq|].
      cbn [asksTrie]. by rewrite Hasks, fmap_insert.
    + intros p0 q0 Hp0. unfold registered, register. cbn [db preimages].
      apply lookup_insert_Some in Hp0 as [[<- <-]|[Hne Hp0]].
      * split; [apply lookup_insert_eq|]. split; [apply lookup_insert_eq|].
        intros o v Ho. apply registered_insert. by apply (Hq o v).
      * destruct (Hst p0 q0 Hp0) as (Hdb & Hrp & Hro).
        split; [|split].
        -- rewrite lookup_insert_ne; [done|]. congruence.
        -- by apply registered_insert, Hreg.
        -- intros o v Ho. apply registered_insert, Hreg. by apply (Hro o v).
Qed.

(** Opening the queue of a price gives the stored form of its level. *)
Lemma open_level self bookId ex a p :
  getStateExchangeObject self bookId = Some ex ->
  asksTrie ex = level_value EncodeToBytes rootDigest <$> a ->
  (forall p0 q0, a !! p0 = Some q0 ->
     db self !! (p0, rootDigest (queue_trie q0)) = Some (queue_trie q0) /\
     registered self p0 /\
     forall o v, q0 !! o = Some v -> registered self o) ->
  book_wf a ->
  match asksTrie ex !! p with
  | None => Some (0, ∅)
  | Some v =>
      data ← DecodeBytes v;
      Some (ol_Volume data,
            getTrie (newStateOrderList self Ask bookId p data) (db self))
  end = Some (total (default ∅ (a !! p)), queue_trie (default ∅ (a !! p))).
Proof.
  intros Hex Hasks Hst Hwf. rewrite Hasks, lookup_fmap.
  destruct (a !! p) as [q|] eqn:Hq; cbn [fmap option_fmap option_map default].
  - destruct (Hwf p q Hq) as (_ & _ & Hqwf). rewrite decode_level by done.
    cbn. unfold getTrie. cbn. by destruct (Hst p q Hq) as (-> & _).
  - by rewrite total_empty.
Qed.

Lemma upsert_represents self bookId a p o d :
  represents EncodeToBytes rootDigest self bookId a ->
  book_wf a -> is_hash p -> is_hash o ->
  exists self',
    upsertOrder DecodeBytes EncodeToBytes rootDigest self bookId Ask p o d
      = inl self' /\
    represents EncodeToBytes rootDigest self' bookId (book_upsert a p o d).
Proof.
  intros [(ex & Hex & Hasks) Hst] Hwf Hp Ho.
  pose proof (open_level self bookId ex a p Hex Hasks Hst Hwf) as Hopen.
  pose proof (book_level_wf a p Hwf) as Hq0.
  unfold upsertOrder, openOrCreate, book_upsert. rewrite Hex.
  rewrite (BigToHash_id p Hp), (BigToHash_id o Ho). cbn [sideTrie].
  set (q0 := default ∅ (a !! p)) in *.
  assert (match asksTrie ex !! p with
          | Some v =>
              match DecodeBytes v with
              | Some data =>
                  inl (getTrie (newStateOrderList self Ask bookId p data) (db self))
              | None => inr (ErrFailDecodeOrderList bookId p)
              end
          | None => inl ∅
          end = (inl (queue_trie q0) : Trie + error)) as ->.
  { destruct (asksTrie ex !! p) as [v|]; cbn in Hopen.
    - destruct (DecodeBytes v); cbn in Hopen; [|done].
      injection Hopen as _ Ht. by rewrite Ht.
    - injection Hopen as _ Ht. by rewrite Ht. }
  assert (match queue_trie q0 !! o with
          | Some v => SetBytes v
          | None => 0
          end = default 0 (q0 !! o)) as ->.
  { unfold queue_trie. rewrite lookup_fmap.
    destruct (q0 !! o) as [v|] eqn:Hv; [|done]. cbn.
    destruct (Hq0 o v Hv) as [_ ?]. apply SetBytes_Bytes. lia. }
  assert (forall o' v', q0 !! o' = Some v' -> registered self o') as Hreg0.
  { intros o' v' Ho'. subst q0. destruct (a !! p) as [q|] eqn:Hq; [|done].
    destruct (Hst p q Hq) as (_ & _ & Hro). by apply (Hro o' v'). }
  destruct (Z.leb_spec (default 0 (q0 !! o) + d) 0) as [Hle|Hgt].
  - eexists. split; [done|].
    assert (delete o (queue_trie q0) = queue_trie (delete o q0)) as ->
      by (unfold queue_trie; by rewrite fmap_delete).
    rewrite aggregate_queue_trie by (by apply queue_wf_delete).
    apply writeLevel_represents; try done.
    intros o' v' [_ Ho']%lookup_delete_Some. by apply (Hreg0 o' v').
  - eexists. split; [done|].
    assert (<[o := Bytes (default 0 (q0 !! o) + d)]> (queue_trie q0) =
            queue_trie (<[o := default 0 (q0 !! o) + d]> q0)) as ->
      by (unfold queue_trie; by rewrite fmap_insert).
    rewrite aggregate_queue_trie by (apply queue_wf_insert; [done..|lia]).
    apply writeLevel_represents; try done.
    + intros k Hk. by apply registered_insert.
    + intros o' v' Ho'. unfold register.
      apply lookup_insert_Some in Ho' as [[<- _]|[_ Ho']].
      * apply lookup_insert_eq.
      * apply registered_insert. by apply (Hreg0 o' v').
Qed.

Lemma remove_represents self bookId a p o :
  represents EncodeToBytes rootDigest self bookId a ->
  book_wf a -> is_hash p -> is_hash o ->
  exists self',
    removeOrder DecodeBytes EncodeToBytes rootDigest self bookId Ask p o
      = inl self' /\
    represents EncodeToBytes rootDigest self' bookId (book_remove a p o).
Proof.
  intros Hrep Hwf Hp Ho. pose proof Hrep as [(ex & Hex & Hasks) Hst].
  unfold removeOrder, book_remove. rewrite Hex.
  rewrite (BigToHash_id p Hp), (BigToHash_id o Ho). cbn [sideTrie].
  rewrite Hasks, lookup_fmap.
  destruct (a !! p) as [q|] eqn:Hq; cbn [fmap option_fmap option_map]; [|eauto].
  destruct (Hwf p q Hq) as (_ & _ & Hqwf).
  destruct (Hst p q Hq) as (Hdb & _ & Hro).
  rewrite decode_level by done. unfold getTrie, newStateOrderList.
  cbn [sol_price sol_data ol_Root ol_Volume]. rewrite Hdb.
  cbn [default from_option id]. rewrite queue_trie_lookup.
  destruct (q !! o) as [v|] eqn:Hv; cbn [fmap option_fmap option_map]; [|eauto].
  eexists. split; [done|].
  destruct (Hqwf o v Hv) as [_ Hvpos].
  rewrite SetBytes_Bytes by lia.
  assert (delete o (queue_trie q) = queue_trie (delete o q)) as ->
    by (unfold queue_trie; by rewrite fmap_delete).
  rewrite <-(total_delete q o v) by done.
  apply writeLevel_represents; try done.
  intros o' v' [_ Ho']%lookup_delete_Some. by apply (Hro o' v').
Qed.

Lemma fresh_represents bookId :
  represents EncodeToBytes rootDigest (freshBook bookId) bookId ∅.
Proof.
  split.
  - exists emptyExchange. split; [apply lookup_insert_eq|].
    by rewrite fmap_empty.
  - intros p q Hp. by rewrite lookup_empty in Hp.
Qed.

Lemma run_represents bookId ops : forall self a,
  represents EncodeToBytes rootDigest self bookId a ->
  book_wf a ->
  Forall op_in_range ops ->
  exists self',
    run DecodeBytes EncodeToBytes rootDigest self bookId ops = inl self' /\
    represents EncodeToBytes rootDigest self' bookId (foldl book_apply a ops) /\
    book_wf (foldl book_apply a ops).
Proof.
  induction ops as [|o ops IH]; intros self a Hrep Hwf Hops.
  - exists self. by cbn.
  - apply Forall_cons in Hops as [Ho Hops].
    assert (exists self1,
              apply_op DecodeBytes EncodeToBytes rootDigest self bookId o
                = inl self1 /\
              represents EncodeToBytes rootDigest self1 bookId (book_apply a o))
      as (self1 & Happ & Hrep1).
    { destruct o as [p i d|p i]; destruct Ho as [? ?]; cbn.
      - by apply upsert_represents.
      - by apply remove_represents. }
    destruct (IH self1 (book_apply a o) Hrep1 (book_apply_wf _ _ Hwf Ho) Hops)
      as (self' & Hrun & Hrep' & Hwf').
    exists self'. cbn [run foldl]. by rewrite Happ.
Qed.

(** A write opens the book: after an upsert the exchange object exists,
    and no state is reachable in which a written book is not found. *)
Lemma upsert_opens_book self bookId side p o d self' :
  upsertOrder DecodeBytes EncodeToBytes rootDigest self bookId side p o d
    = inl self' ->
  is_Some (getStateExchangeObject self' bookId).
Proof.
  unfold upsertOrder. destruct (openOrCreate self bookId) as [ex self1].
  destruct (sideTrie side ex !! BigToHash p) as [v|];
    [destruct (DecodeBytes v) as [data|]; [|done]|];
    (destruct (_ <=? 0); intros [= <-]; unfold writeLevel;
     destruct (_ =? 0); eexists; apply lookup_insert_eq).
Qed.

(** C6. Round trip. Every state reached from a fresh empty ask book by
    upserts and removals has a dump, and replaying the (price, orderId,
    volume) triples of that dump by [upsertOrder] into a fresh empty ask
    book gives a state whose dump is the same snapshot. *)
Theorem dump_replay_roundtrip bookId ops :
  Forall op_in_range ops ->
  exists self snap,
    run DecodeBytes EncodeToBytes rootDigest (freshBook bookId) bookId ops
      = inl self /\
    DumpAskTrie DecodeBytes self bookId = inl snap /\
    exists self',
      run DecodeBytes EncodeToBytes rootDigest (freshBook bookId) bookId
        (triples snap) = inl self' /\
      DumpAskTrie DecodeBytes self' bookId = inl snap.
Proof.
  intros Hops.
  destruct (run_represents bookId ops _ ∅ (fresh_represents bookId)
              (map_Forall_empty _) Hops) as (self & Hrun & Hrep & Hwf).
  set (a := foldl book_apply ∅ ops) in *.
  exists self, (book_snapshot a). split; [done|].
  split; [by apply dump_represents|].
  destruct (run_represents bookId (triples (book_snapshot a)) _ ∅
              (fresh_represents bookId) (map_Forall_empty _)
              (triples_in_range a Hwf)) as (self' & Hrun' & Hrep' & Hwf').
  rewrite replay_book_snapshot in Hrep', Hwf' by done.
  exists self'. split; [done|]. by apply dump_represents.
Qed.

End Refinement.

(** ** The example codec and digest *)

Lemma sample_decode_encode (x : orderList) :
  0 <= ol_Volume x -> is_hash (ol_Root x) ->
  sample_DecodeBytes (sample_EncodeToBytes x) = Some x.
Proof.
  destruct x as [vol root]. cbn [ol_Volume ol_Root]. intros Hvol Hroot.
  unfold sample_DecodeBytes, sample_EncodeToBytes. cbn [ol_Volume ol_Root].
  assert (length (Hash_Bytes root) = HashLength) as Hlen
    by apply fixed_be_length.
  destruct (decide (length (Hash_Bytes root ++ Bytes vol) < HashLength)%nat)
    as [Hlt|_].
  { rewrite length_app in Hlt. lia. }
  rewrite <-Hlen at 1 2. rewrite drop_app_length, take_app_length.
  rewrite SetBytes_Bytes by done. unfold Hash_Bytes.
  rewrite SetBytes_fixed_be by apply Hroot.
  change (256 ^ Z.of_nat HashLength) with (2 ^ 256).
  by rewrite Z.mod_small by apply Hroot.
Qed.

Lemma sample_rootDigest_hash (t : Trie) : is_hash (sample_rootDigest t).
Proof. apply Z.mod_pos_bound. lia. Qed.

(** ** Examples *)

(** The scenario of the spec and its two dumps. *)
Example scenario_dump :
  DumpAskTrie sample_DecodeBytes scenario_state book1 = inl scenario_snapshot /\
  DumpBidTrie sample_DecodeBytes scenario_state book1 = inl [] /\
  DumpAskTrie sample_DecodeBytes scenario_state book2 =
    inr (ErrOrderBookNotFound book2).
Proof. by vm_compute. Qed.

(** The run of the test file: best left and right keys 1 and 2, and 2 and
    2 once key 1 is deleted. *)
Example test_trie_best :
  fst <$> (TryGetBestLeftKeyAndValue test_trie).1 = Some 1 /\
  fst <$> (TryGetBestRightKeyAndValue test_trie).1 = Some 2 /\
  fst <$> (TryGetBestLeftKeyAndValue (TryDelete test_trie (BigToHash 1)).1).1 = Some 2 /\
  fst <$> (TryGetBestRightKeyAndValue (TryDelete test_trie (BigToHash 1)).1).1 = Some 2.
Proof. by vm_compute. Qed.

(** The message of the decode error of book 1 at price 100. *)
Example decode_error_message :
  Error (ErrFailDecodeOrderList book1 100) =
  "Fail when decode order iist orderBook : 0x0000000000000000000000000000000000000000000000000000000000000001 ,price :100 ".
Proof. reflexivity. Qed.

(** A stored aggregate of 100 over a queue that sums to 8 is dumped as
    100. *)
Example dump_disagreeing_aggregate :
  DumpAskTrie sample_DecodeBytes state_disagree book1 =
    inl [(100, {| Volume := 100; Orders := [(1, 5); (2, 3)] |})].
Proof. by vm_compute. Qed.



(** C9, counterexample. The ask trie of book 1 and the bid trie of book 2
    hold the same pair, and the two dumps return different errors. *)
Lemma dump_ask_bid_errors_differ :
  (exists ex1 ex2,
     getStateExchangeObject state_bad book1 = Some ex1 /\
     getStateExchangeObject state_bad book2 = Some ex2 /\
     asksTrie ex1 = bidsTrie ex2) /\
  DumpAskTrie sample_DecodeBytes state_bad book1 <>
  DumpBidTrie sample_DecodeBytes state_bad book2.
Proof.
  split.
  - by eexists _, _.
  - by vm_compute.
Qed.

(** Witnesses *)



Lemma dump_volume_is_stored_aggregate_witness :
  getStateExchangeObject state_disagree book1 = Some exchange_disagree /\
  Forall2 (fun kv e => exists data,
             sample_DecodeBytes kv.2 = Some data /\ Volume e.2 = ol_Volume data)
    (NodeIterator (sideTrie Ask exchange_disagree))
    [(100, {| Volume := 100; Orders := [(1, 5); (2, 3)] |})].
Proof.
  split; [reflexivity|].
  apply (dump_volume_is_stored_aggregate sample_DecodeBytes Ask state_disagree
           book1 exchange_disagree); reflexivity.
Defined.


Lemma dump_ask_bid_agree_witness :
  getStateExchangeObject state_disagree book1 = Some exchange_disagree /\
  asksTrie exchange_disagree = bidsTrie exchange_disagree /\
  DumpAskTrie sample_DecodeBytes state_disagree book1 =
  DumpBidTrie sample_DecodeBytes state_disagree book1.
Proof.
  split; [reflexivity|]. split; [reflexivity|].
  apply (dump_ask_bid_agree sample_DecodeBytes state_disagree state_disagree
           book1 book1 exchange_disagree exchange_disagree); reflexivity.
Defined.

Lemma dump_replay_roundtrip_witness :
  Forall op_in_range scenario_ops /\
  exists self snap,
    sample_run scenario_ops = inl self /\
    DumpAskTrie sample_DecodeBytes self book1 = inl snap /\
    exists self',
      sample_run (triples snap) = inl self' /\
      DumpAskTrie sample_DecodeBytes self' book1 = inl snap.
Proof.
  assert (Forall op_in_range scenario_ops) as Hops.
  { repeat (apply Forall_cons; split; [cbn; unfold is_hash; lia|]).
    constructor. }
  split; [exact Hops|].
  exact (dump_replay_roundtrip sample_DecodeBytes sample_EncodeToBytes
           sample_rootDigest sample_decode_encode sample_rootDigest_hash
           book1 scenario_ops Hops).
Defined.

(** The replay of the scenario's snapshot, computed. *)
Example scenario_replay :
  triples scenario_snapshot = [Upsert 90 3 10; Upsert 100 1 5; Upsert 100 2 3] /\
  match sample_run (triples scenario_snapshot) with
  | inl self => DumpAskTrie sample_DecodeBytes self book1 = inl scenario_snapshot
  | inr _ => False
  end.
Proof. by vm_compute. Qed.

(** * Further properties of the code *)

(** ** [dump.go] *)

Section DumpMore.

Variable DecodeBytes : bytes -> option orderList.
Implicit Types (self : TomoXStateDB) (side : Side).

Lemma iterate_length {V} (t : gmap Z V) : length (iterate t) = size t.
Proof. by rewrite iterate_perm, length_map_to_list. Qed.

(** X1. A dump of one side of a book reads nothing but that side's trie,
    the stored tries and the preimages: two states that agree on them give
    the same result, whatever the other side of the book and the other
    books hold. *)
Theorem dump_reads_one_side side self1 self2 orderBook ex1 ex2 :
  getStateExchangeObject self1 orderBook = Some ex1 ->
  getStateExchangeObject self2 orderBook = Some ex2 ->
  sideTrie side ex1 = sideTrie side ex2 ->
  preimages self1 = preimages self2 ->
  db self1 = db self2 ->
  DumpTrie DecodeBytes side self1 orderBook =
  DumpTrie DecodeBytes side self2 orderBook.
Proof.
  intros Hex1 Hex2 Ht Hp Hd.
  rewrite (DumpTrie_spec _ _ _ _ _ Hex1), (DumpTrie_spec _ _ _ _ _ Hex2), Ht.
  pose proof (dumpEntries_ext DecodeBytes self1 self2 orderBook orderBook
                (NodeIterator (sideTrie side ex2)) Hp Hd) as H.
  destruct (dumpEntries _ self1 _ _), (dumpEntries _ self2 _ _); try done.
  - by subst.
  - by destruct H as (price & -> & ->).
Qed.

(** X2. A successful dump holds exactly one entry per stored price level,
    also when two keys resolve to the same price, and each entry one order
    per entry of the queue that was opened for it. *)
Theorem dump_one_entry_per_level side self orderBook ex snap :
  getStateExchangeObject self orderBook = Some ex ->
  DumpTrie DecodeBytes side self orderBook = inl snap ->
  length snap = size (sideTrie side ex) /\
  Forall2 (fun kv e => exists data,
             DecodeBytes kv.2 = Some data /\
             length (Orders e.2) =
               size (getTrie (newStateOrderList self side orderBook
                                (BytesToHash (GetKey self kv.1)) data)
                       (db self)))
          (NodeIterator (sideTrie side ex)) snap.
Proof.
  intros Hex. rewrite (DumpTrie_spec _ _ _ _ _ Hex). intros E%dumpEntries_inl.
  split.
  - rewrite <-iterate_length. symmetry. by eapply Forall2_length.
  - eapply Forall2_impl; [exact E|].
    intros kv e (data & Hd & ->). exists data. split; [done|].
    cbn. unfold dumpOrders, getTrie, NodeIterator. cbn.
    by rewrite length_fmap, iterate_length.
Qed.

(** X3. Every price, order identifier and order volume of a dump is read
    as an unsigned number: none is negative. *)
Theorem dump_unsigned side self orderBook snap :
  DumpTrie DecodeBytes side self orderBook = inl snap ->
  Forall (fun e => 0 <= e.1 /\
                   Forall (fun ov => 0 <= ov.1 /\ 0 <= ov.2) (Orders e.2))
         snap.
Proof.
  destruct (getStateExchangeObject self orderBook) as [ex|] eqn:Hex.
  - rewrite (DumpTrie_spec _ _ _ _ _ Hex). intros E%dumpEntries_inl.
    eapply Forall2_Forall_r; [exact E|].
    apply Forall_forall. intros kv _ e (data & _ & ->). cbn. split.
    + apply SetBytes_bound.
    + unfold dumpOrders. apply Forall_fmap, Forall_forall. intros kv' _. cbn.
      split; apply SetBytes_bound.
  - by rewrite DumpTrie_absent.
Qed.


End DumpMore.

(** ** [eth/api_backend.go] *)

Section EthLogsAndPool.

Variables Context Ethereum Oracle Receipt Log ChainDb Transaction : Type.
Variable eth_chainDb : Ethereum -> ChainDb.
Variable Receipt_Logs : Receipt -> option (list Log).
Variable core_GetBlockNumber : ChainDb -> Z -> Z.
Variable core_GetBlockReceipts : ChainDb -> Z -> Z -> option (list Receipt).
Variable txPool_Pending :
  Ethereum -> gmap Z (list Transaction) * option string.

Lemma GetLogs_loop_spec (receipts : list Receipt) :
  forall done rest : list (option (list Log)),
    length rest = length receipts ->
    GetLogs_loop Receipt_Logs (length done) receipts (done ++ rest) =
    done ++ (Receipt_Logs <$> receipts).
Proof.
  induction receipts as [|r receipts IH]; intros done rest Hlen.
  - destruct rest; [done|discriminate].
  - destruct rest as [|x rest]; [discriminate|]. cbn [GetLogs_loop].
    rewrite <-(Nat.add_0_r (length done)) at 2. rewrite insert_app_r.
    cbn [insert list_insert].
    change (done ++ Receipt_Logs r :: rest)
      with (done ++ [Receipt_Logs r] ++ rest).
    rewrite app_assoc.
    replace (S (length done)) with (length (done ++ [Receipt_Logs r]))
      by (rewrite length_app; cbn; lia).
    rewrite IH by (cbn in Hlen; lia). by rewrite <-app_assoc.
Qed.

(** X5. [GetLogs] returns nil exactly when the block has no stored
    receipts, and otherwise one log list per receipt, the list of the i-th
    receipt at index i; it never returns an error. *)
Theorem GetLogs_maps_receipts (b : EthApiBackend Ethereum Oracle)
    (ctx : Context) (blockHash : Z) :
  EthApiBackend_GetLogs eth_chainDb Receipt_Logs core_GetBlockNumber
    core_GetBlockReceipts b ctx blockHash =
  ((fun receipts : list Receipt => Receipt_Logs <$> receipts) <$>
     core_GetBlockReceipts (eth_chainDb (eth_eth _ _ b)) blockHash
       (core_GetBlockNumber (eth_chainDb (eth_eth _ _ b)) blockHash),
   None).
Proof.
  unfold EthApiBackend_GetLogs.
  destruct (core_GetBlockReceipts _ _ _) as [receipts|]; [|done].
  cbn. do 2 f_equal.
  apply (GetLogs_loop_spec receipts []). apply length_replicate.
Qed.

Lemma foldl_app_snd {A B} (l : list (A * list B)) (acc : list B) :
  foldl (fun txs batch => txs ++ batch.2) acc l = acc ++ concat l.*2.
Proof.
  revert acc. induction l as [|x l IH]; intros acc; cbn.
  - by rewrite app_nil_r.
  - by rewrite IH, app_assoc.
Qed.

Lemma elem_of_concat {A} (x : A) (ls : list (list A)) :
  x ∈ concat ls <-> exists l, l ∈ ls /\ x ∈ l.
Proof.
  induction ls as [|l ls IH]; cbn.
  - split; [by intros ?%elem_of_nil|by intros (? & ?%elem_of_nil & _)].
  - rewrite elem_of_app, IH. split.
    + intros [Hx|(l' & Hl' & Hx)]; [exists l|exists l']; split; try done;
        [by left|by right].
    + intros (l' & [->|Hl']%elem_of_cons & Hx); [by left|right; eauto].
Qed.

Lemma concat_perm {A} (l1 l2 : list (list A)) :
  l1 ≡ₚ l2 -> concat l1 ≡ₚ concat l2.
Proof.
  induction 1 as [|x l1 l2 _ IH|x y l|l1 l2 l3 _ IH1 _ IH2]; cbn.
  - done.
  - by rewrite IH.
  - rewrite !app_assoc. f_equiv. apply Permutation_app_comm.
  - by etrans.
Qed.

(** X6. Whatever order the range loop visits the pending map in,
    [GetPoolTransactions] returns the batches it visited one after the
    other: every pending transaction once, as a rearrangement of the
    batches of the map, and no error. When the pool reports an error it
    returns that error and no transaction. *)
Theorem GetPoolTransactions_all_pending (b : EthApiBackend Ethereum Oracle)
    (range : list (Z * list Transaction))
    (pending : gmap Z (list Transaction)) (err : option string) :
  txPool_Pending (eth_eth _ _ b) = (pending, err) ->
  range ≡ₚ map_to_list pending ->
  match err with
  | Some e =>
      EthApiBackend_GetPoolTransactions txPool_Pending b range = ([], Some e)
  | None =>
      exists txs,
        EthApiBackend_GetPoolTransactions txPool_Pending b range = (txs, None) /\
        txs = concat range.*2 /\
        txs ≡ₚ concat (map_to_list pending).*2 /\
        forall addr batch tx,
          pending !! addr = Some batch -> tx ∈ batch -> tx ∈ txs
  end.
Proof.
  intros Hp Hrange. unfold EthApiBackend_GetPoolTransactions. rewrite Hp.
  destruct err as [e|]; [done|].
  eexists. split; [done|]. rewrite foldl_app_snd. cbn [app].
  split; [done|]. split.
  - apply concat_perm. by rewrite Hrange.
  - intros addr batch tx Hb Htx. apply elem_of_concat.
    exists batch. split; [|done]. apply list_elem_of_fmap.
    exists (addr, batch). split; [done|].
    rewrite Hrange. by apply elem_of_map_to_list.
Qed.

End EthLogsAndPool.

Section EthCaps.

Variables Ethereum Oracle Block StateDB : Type.
Variable blockchain_GetBlockByNumber : Ethereum -> Z -> Block.
Variable blockchain_StateAt : Ethereum -> Z -> option StateDB * option string.
Variable Block_Root : Block -> Z.
Variable stateDatabase_GetVoterCap : option StateDB -> Z -> Z -> Z.
Variable stateDatabase_GetCandidates : option StateDB -> list Z.
Variable stateDatabase_GetCandidateCap : option StateDB -> Z -> Z.

(** A map filled by assigning [f k] under every key [k] of a list. *)
Lemma foldl_insert_lookup (f : Z -> Z) (l : list Z) :
  forall (m : gmap Z Z) (a : Z),
    foldl (fun m k => <[k := f k]> m) m l !! a =
    if decide (a ∈ l) then Some (f a) else m !! a.
Proof.
  induction l as [|k l IH]; intros m a; cbn [foldl].
  - destruct (decide (a ∈ [])) as [H%elem_of_nil|]; done.
  - rewrite IH. destruct (decide (a ∈ l)) as [Hin|Hnin].
    + rewrite decide_True; [done|by right].
    + destruct (decide (a = k)) as [->|Hne].
      * rewrite lookup_insert_eq, decide_True; [done|by left].
      * rewrite lookup_insert_ne by done. rewrite decide_False; [done|].
        by intros [->|?]%elem_of_cons.
Qed.



End EthCaps.

Section EthEpoch.

Variables Ethereum Oracle Block : Type.
Variable blockchain_CurrentBlock : Ethereum -> Block.
Variable blockchain_GetBlockByNumber : Ethereum -> Z -> Block.
Variable chainConfig_Posv_Epoch : Ethereum -> Z.
Variable Block_Number : Block -> Z.
Variable Block_Time : Block -> Z.

Lemma Int_Uint64_range (x : Z) : 0 <= Int_Uint64 x < 2 ^ 64.
Proof. apply Z.mod_pos_bound. lia. Qed.

(** X9. From the second epoch on, [GetEpochDuration] returns the time of
    the checkpoint before the last one minus the time of the last
    checkpoint, the last checkpoint being the current number rounded down
    to a multiple of the epoch: a value that is not positive when block
    times do not decrease with the block number. *)
Theorem GetEpochDuration_is_negated_elapsed_time
    (b : EthApiBackend Ethereum Oracle) :
  let chain := eth_eth _ _ b in
  let number := Int_Uint64 (Block_Number (blockchain_CurrentBlock chain)) in
  let Epoch := chainConfig_Posv_Epoch chain in
  let last := number - number mod Epoch in
  0 < Epoch -> Epoch <= number ->
  (forall m n, 0 <= m <= n ->
     Block_Time (blockchain_GetBlockByNumber chain m) <=
     Block_Time (blockchain_GetBlockByNumber chain n)) ->
  exists d,
    EthApiBackend_GetEpochDuration blockchain_CurrentBlock
      blockchain_GetBlockByNumber chainConfig_Posv_Epoch Block_Number
      Block_Time b = Return d /\
    d = Block_Time (blockchain_GetBlockByNumber chain (last - Epoch)) -
        Block_Time (blockchain_GetBlockByNumber chain last) /\
    last mod Epoch = 0 /\ 0 <= last - Epoch /\ last <= number /\
    d <= 0.
Proof.
  intros chain number Epoch last Hpos Hle Hmono.
  pose proof (Int_Uint64_range (Block_Number (blockchain_CurrentBlock chain)))
    as Hnum. fold number in Hnum.
  pose proof (Z.mod_pos_bound number Epoch Hpos) as Hmod.
  assert (last mod Epoch = 0) as Hmult.
  { unfold last. rewrite Zminus_mod, Z.mod_mod, Z.sub_diag by lia.
    by apply Z.mod_0_l; lia. }
  assert (Epoch <= last) as Hlast.
  { pose proof (Z.div_mod number Epoch ltac:(lia)) as Hdm.
    assert (1 <= number / Epoch) by (apply Z.div_le_lower_bound; lia).
    unfold last. nia. }
  exists (Block_Time (blockchain_GetBlockByNumber chain (last - Epoch)) -
          Block_Time (blockchain_GetBlockByNumber chain last)).
  split.
  - unfold EthApiBackend_GetEpochDuration. fold chain number Epoch.
    destruct (Z.eqb_spec Epoch 0); [lia|]. fold last.
    unfold wrap64. rewrite (Z.mod_small last) by (unfold last; lia).
    rewrite (Z.mod_small (last - Epoch)) by (unfold last in *; lia).
    f_equal. lia.
  - repeat split; try (unfold last in *; lia).
    specialize (Hmono (last - Epoch) last ltac:(lia)). lia.
Qed.


End EthEpoch.

Section EthNonceAndHeaders.

Variables Context Ethereum LightEthereum Oracle Block Header StateDB TomoX : Type.
Variables PendingBlockNumber LatestBlockNumber : Z.
Variable miner_PendingBlock : Ethereum -> Block.
Variable miner_Pending : Ethereum -> Block * option StateDB.
Variable blockchain_CurrentBlock : Ethereum -> Block.
Variable blockchain_GetHeaderByNumber : Ethereum -> Z -> option Header.
Variable blockchain_StateAt : Ethereum -> Z -> option StateDB * option string.
Variable Block_Header : Block -> option Header.
Variable Header_Root : Header -> Z.
Variable eth_GetTomoX : Ethereum -> option TomoX.
Variable GetTomoxState : TomoX -> Block -> option TomoXStateDB * option string.
Variable GetNonce : option TomoXStateDB -> Z -> Z.

(** X11. On a full node without TomoX service [GetOrderNonce] answers as
    the light client does; with the service, it returns the nonce of the
    TomoX state of the current block, or the error of opening that state.
    A nonce returned with an error is 0. *)
Theorem GetOrderNonce_full_node (b : EthApiBackend Ethereum Oracle)
    (lb : LesApiBackend LightEthereum Oracle) (address : Z) :
  (eth_GetTomoX (eth_eth _ _ b) = None ->
   EthApiBackend_GetOrderNonce blockchain_CurrentBlock eth_GetTomoX
     GetTomoxState GetNonce b address =
   LesApiBackend_GetOrderNonce _ _ lb address) /\
  (forall svc tomoxState,
     eth_GetTomoX (eth_eth _ _ b) = Some svc ->
     GetTomoxState svc (blockchain_CurrentBlock (eth_eth _ _ b))
       = (tomoxState, None) ->
     EthApiBackend_GetOrderNonce blockchain_CurrentBlock eth_GetTomoX
       GetTomoxState GetNonce b address = (GetNonce tomoxState address, None)) /\
  (forall nonce e,
     EthApiBackend_GetOrderNonce blockchain_CurrentBlock eth_GetTomoX
       GetTomoxState GetNonce b address = (nonce, Some e) ->
     nonce = 0).
Proof.
  unfold EthApiBackend_GetOrderNonce, EthApiBackend_CurrentBlock,
    LesApiBackend_GetOrderNonce.
  split; [by intros ->|]. split.
  - by intros svc tomoxState -> ->.
  - intros nonce e. destruct (eth_GetTomoX _) as [svc|]; [|by intros [= <- _]].
    destruct (GetTomoxState _ _) as [tomoxState [e'|]]; by intros [= <-].
Qed.

(** X12. For a number other than the pending one, an error of
    [StateAndHeaderByNumber] is the error of opening the state at the root
    of the header [HeaderByNumber] found, and comes with that header; when
    no header is found it returns no state, no header and no error. *)
Theorem StateAndHeaderByNumber_errors (b : EthApiBackend Ethereum Oracle)
    (ctx : Context) (blockNr : Z) :
  blockNr <> PendingBlockNumber ->
  (EthApiBackend_HeaderByNumber PendingBlockNumber LatestBlockNumber
     miner_PendingBlock blockchain_CurrentBlock blockchain_GetHeaderByNumber
     Block_Header b ctx blockNr).2 = None /\
  ((EthApiBackend_HeaderByNumber PendingBlockNumber LatestBlockNumber
      miner_PendingBlock blockchain_CurrentBlock blockchain_GetHeaderByNumber
      Block_Header b ctx blockNr).1 = None ->
   EthApiBackend_StateAndHeaderByNumber PendingBlockNumber LatestBlockNumber
     miner_PendingBlock miner_Pending blockchain_CurrentBlock
     blockchain_GetHeaderByNumber blockchain_StateAt Block_Header Header_Root
     b ctx blockNr = (None, None, None)) /\
  (forall stateDb header e,
     EthApiBackend_StateAndHeaderByNumber PendingBlockNumber LatestBlockNumber
       miner_PendingBlock miner_Pending blockchain_CurrentBlock
       blockchain_GetHeaderByNumber blockchain_StateAt Block_Header Header_Root
       b ctx blockNr = (stateDb, header, Some e) ->
     exists h,
       header = Some h /\
       (EthApiBackend_HeaderByNumber PendingBlockNumber LatestBlockNumber
          miner_PendingBlock blockchain_CurrentBlock
          blockchain_GetHeaderByNumber Block_Header b ctx blockNr).1 = Some h /\
       blockchain_StateAt (eth_eth _ _ b) (Header_Root h) = (stateDb, Some e)).
Proof.
  intros Hne. unfold EthApiBackend_StateAndHeaderByNumber.
  rewrite decide_False by done.
  assert ((EthApiBackend_HeaderByNumber PendingBlockNumber LatestBlockNumber
             miner_PendingBlock blockchain_CurrentBlock
             blockchain_GetHeaderByNumber Block_Header b ctx blockNr).2 = None)
    as Herr.
  { unfold EthApiBackend_HeaderByNumber. by repeat case_decide. }
  destruct (EthApiBackend_HeaderByNumber _ _ _ _ _ _ b ctx blockNr)
    as [header err]. cbn in Herr. subst err. cbn [fst snd].
  split; [done|]. split.
  - by intros ->.
  - intros stateDb header' e. destruct header as [h|]; [|done].
    destruct (blockchain_StateAt _ _) as [st err] eqn:Hst.
    intros [= -> <- ->]. by exists h.
Qed.

End EthNonceAndHeaders.

Section RewardFiles.

Variables Ethereum LightEthereum Oracle Header Value : Type.
Variable blockchain_GetHeaderByHash : Ethereum -> Z -> option Header.
Variable les_blockchain_GetHeaderByHash : LightEthereum -> Z -> option Header.
Variable Header_Number : Header -> Z.
Variable Header_Hash : Header -> Z.
Variable Header_HashNoValidator : Header -> Z.
Variable common_StoreRewardFolder : string.
Variable filepath_Join : string -> string -> string.
Variable ioutil_ReadFile : string -> bytes * option string.
Variable json_Unmarshal :
  bytes -> gmap string Value -> gmap string Value * option string.

(** X13. [GetRewardByHash] of the full node: when the reward file named
    by the hash of the header can be read, the result is what it parses
    to, or the empty map when it does not parse; no other file matters, in
    particular not the file named by the hash without validator. *)
Theorem GetRewardByHash_first_file_decides
    (s : EthApiBackend Ethereum Oracle) (hash : Z) (header : Header)
    (data : bytes) (other_ReadFile : string -> bytes * option string) :
  blockchain_GetHeaderByHash (eth_eth _ _ s) hash = Some header ->
  ioutil_ReadFile
    (filepath_Join common_StoreRewardFolder
       (rewardFileName (Header_Number header) (Header_Hash header)))
    = (data, None) ->
  other_ReadFile
    (filepath_Join common_StoreRewardFolder
       (rewardFileName (Header_Number header) (Header_Hash header)))
    = (data, None) ->
  EthApiBackend_GetRewardByHash blockchain_GetHeaderByHash Header_Number
    Header_Hash Header_HashNoValidator common_StoreRewardFolder filepath_Join
    ioutil_ReadFile json_Unmarshal s hash =
  match json_Unmarshal data ∅ with
  | (rewards, None) => rewards
  | (_, Some _) => ∅
  end /\
  EthApiBackend_GetRewardByHash blockchain_GetHeaderByHash Header_Number
    Header_Hash Header_HashNoValidator common_StoreRewardFolder filepath_Join
    other_ReadFile json_Unmarshal s hash =
  EthApiBackend_GetRewardByHash blockchain_GetHeaderByHash Header_Number
    Header_Hash Header_HashNoValidator common_StoreRewardFolder filepath_Join
    ioutil_ReadFile json_Unmarshal s hash.
Proof.
  intros Hh Hread Hother. unfold EthApiBackend_GetRewardByHash.
  rewrite Hh, Hread, Hother.
  by destruct (json_Unmarshal data ∅) as [rewards [e|]].
Qed.

(** X14. The light client and the full node read rewards alike: when
    their chains know the same header under a hash, their
    [GetRewardByHash] return the same map. *)
Theorem GetRewardByHash_les_eth (s : EthApiBackend Ethereum Oracle)
    (ls : LesApiBackend LightEthereum Oracle) (hash : Z) :
  les_blockchain_GetHeaderByHash (les_eth _ _ ls) hash =
  blockchain_GetHeaderByHash (eth_eth _ _ s) hash ->
  LesApiBackend_GetRewardByHash Header_Number Header_Hash
    Header_HashNoValidator common_StoreRewardFolder filepath_Join
    ioutil_ReadFile json_Unmarshal les_blockchain_GetHeaderByHash ls hash =
  EthApiBackend_GetRewardByHash blockchain_GetHeaderByHash Header_Number
    Header_Hash Header_HashNoValidator common_StoreRewardFolder filepath_Join
    ioutil_ReadFile json_Unmarshal s hash.
Proof.
  intros Hh. unfold LesApiBackend_GetRewardByHash, EthApiBackend_GetRewardByHash.
  by rewrite Hh.
Qed.

End RewardFiles.

Section EthVotersRewards.

Variables Ethereum Oracle Block Header StateDB Engine RewardLog : Type.
Variable blockchain_CurrentBlock : Ethereum -> Block.
Variable blockchain_GetBlockByNumber : Ethereum -> Z -> Block.
Variable blockchain_StateAt : Ethereum -> Z -> option StateDB * option string.
Variable eth_engine : Ethereum -> Engine.
Variable chainConfig_Posv_Epoch : Ethereum -> Z.
Variable Config_Posv_FoudationWalletAddr : Ethereum -> Z.
Variable Config_Posv_RewardCheckpoint : Ethereum -> Z.
Variable Config_Posv_Reward : Ethereum -> Z.
Variable Block_Header : Block -> option Header.
Variable Block_Number : Block -> Z.
Variable Block_Root : Block -> Z.
Variable params_Ether : Z.
Variable common_BlocksPerYear : Z.
Variable rewardInflation : Z -> Z -> Z -> Z.
Variable contracts_GetRewardForCheckpoint :
  Engine -> Ethereum -> option Header -> Z ->
  gmap Z RewardLog * Z * option string.
Variable contracts_CalculateRewardForSigner :
  Z -> gmap Z RewardLog -> Z -> gmap Z Z * option string.
Variable contracts_CalculateRewardForHolders :
  Z -> option StateDB -> Z -> Z -> Z -> option string * option (gmap Z Z).

(** The loop finds the reward of the masternode where the visiting order
    first shows it. *)
Lemma GetVotersRewards_loop_spec foundationWalletAddr state masternodeAddr
    number (range : list (Z * Z)) voterResults :
  GetVotersRewards_loop contracts_CalculateRewardForHolders
    foundationWalletAddr state masternodeAddr number range voterResults =
  match (list_to_map range : gmap Z Z) !! masternodeAddr with
  | Some calcReward =>
      match contracts_CalculateRewardForHolders foundationWalletAddr state
              masternodeAddr calcReward number with
      | (Some _, _) => Crit
      | (None, rewards) => Return rewards
      end
  | None => Return voterResults
  end.
Proof.
  induction range as [|[signer calcReward] range IH]; [done|].
  cbn [GetVotersRewards_loop list_to_map foldr fst snd].
  destruct (decide (signer = masternodeAddr)) as [->|Hne].
  - rewrite lookup_insert_eq.
    by destruct (contracts_CalculateRewardForHolders _ _ _ _ _) as [[e|] r].
  - by rewrite lookup_insert_ne.
Qed.

(** X15. The result of [GetVotersRewards] does not depend on the order in
    which the range loop visits the signers' rewards. *)
Theorem GetVotersRewards_visiting_order (b : EthApiBackend Ethereum Oracle)
    (masternodeAddr : Z) (range1 range2 : list (Z * Z)) :
  NoDup range1.*1 ->
  range1 ≡ₚ range2 ->
  EthApiBackend_GetVotersRewards blockchain_CurrentBlock
    blockchain_GetBlockByNumber blockchain_StateAt eth_engine
    chainConfig_Posv_Epoch Config_Posv_FoudationWalletAddr
    Config_Posv_RewardCheckpoint Config_Posv_Reward Block_Header Block_Number
    Block_Root params_Ether common_BlocksPerYear rewardInflation
    contracts_GetRewardForCheckpoint contracts_CalculateRewardForSigner
    contracts_CalculateRewardForHolders b masternodeAddr range1 =
  EthApiBackend_GetVotersRewards blockchain_CurrentBlock
    blockchain_GetBlockByNumber blockchain_StateAt eth_engine
    chainConfig_Posv_Epoch Config_Posv_FoudationWalletAddr
    Config_Posv_RewardCheckpoint Config_Posv_Reward Block_Header Block_Number
    Block_Root params_Ether common_BlocksPerYear rewardInflation
    contracts_GetRewardForCheckpoint contracts_CalculateRewardForSigner
    contracts_CalculateRewardForHolders b masternodeAddr range2.
Proof.
  intros Hnd Hperm. unfold EthApiBackend_GetVotersRewards.
  destruct (_ =? 0); [done|].
  destruct (blockchain_StateAt _ _) as [state [e|]]; [done|].
  destruct (decide _); [done|]. destruct (_ || _ || _); [done|].
  destruct (contracts_GetRewardForCheckpoint _ _ _ _)
    as [[signers totalSigner] [e|]]; [done|].
  destruct (contracts_CalculateRewardForSigner _ _ _) as [rewardSigners [e|]];
    [done|].
  destruct (size signers <=? 0)%nat; [done|].
  rewrite !GetVotersRewards_loop_spec.
  by rewrite (list_to_map_proper (M := gmap Z) range1 range2 Hnd Hperm).
Qed.

(** X16. [GetVotersRewards] returns a map only when the epoch is not 0,
    the state of the checkpoint two epochs back opens, the foundation
    wallet is set, that checkpoint number is neither 0 nor the reward
    checkpoint, and the masternode is among the visited signers: the map
    is then the holders' rewards computed from the reward of its first
    visit. *)
Theorem GetVotersRewards_some (b : EthApiBackend Ethereum Oracle)
    (masternodeAddr : Z) (range : list (Z * Z)) (rewards : gmap Z Z) :
  let chain := eth_eth _ _ b in
  let number := Int_Uint64 (Block_Number (blockchain_CurrentBlock chain)) in
  let Epoch := chainConfig_Posv_Epoch chain in
  let last := wrap64 (wrap64 (number - number mod Epoch) - Epoch) in
  let foundation := Config_Posv_FoudationWalletAddr chain in
  EthApiBackend_GetVotersRewards blockchain_CurrentBlock
    blockchain_GetBlockByNumber blockchain_StateAt eth_engine
    chainConfig_Posv_Epoch Config_Posv_FoudationWalletAddr
    Config_Posv_RewardCheckpoint Config_Posv_Reward Block_Header Block_Number
    Block_Root params_Ether common_BlocksPerYear rewardInflation
    contracts_GetRewardForCheckpoint contracts_CalculateRewardForSigner
    contracts_CalculateRewardForHolders b masternodeAddr range
    = Return (Some rewards) ->
  Epoch <> 0 /\ foundation <> 0 /\ last <> 0 /\
  last <> Config_Posv_RewardCheckpoint chain /\
  exists state calcReward,
    blockchain_StateAt chain
      (Block_Root (blockchain_GetBlockByNumber chain last)) = (state, None) /\
    (masternodeAddr, calcReward) ∈ range /\
    contracts_CalculateRewardForHolders foundation state masternodeAddr
      calcReward number = (None, Some rewards).
Proof.
  intros chain number Epoch last foundation.
  unfold EthApiBackend_GetVotersRewards. fold chain number Epoch.
  destruct (Z.eqb_spec Epoch 0) as [|HE]; [done|]. fold last foundation.
  destruct (blockchain_StateAt chain _) as [state [e|]] eqn:Hst; [done|].
  destruct (decide (foundation = 0)) as [|Hf]; [done|].
  destruct (Z.leb_spec last 0) as [|Hlast]; [done|].
  destruct (Z.leb_spec (wrap64 (last - Config_Posv_RewardCheckpoint chain)) 0)
    as [|Hr]; [done|].
  cbn [orb]. rewrite bool_decide_eq_false_2 by done.
  destruct (contracts_GetRewardForCheckpoint _ _ _ _)
    as [[signers totalSigner] [e|]]; [done|].
  destruct (contracts_CalculateRewardForSigner _ _ _) as [rewardSigners [e|]];
    [done|].
  destruct (size signers <=? 0)%nat; [done|].
  rewrite GetVotersRewards_loop_spec.
  destruct (list_to_map range !! masternodeAddr) as [calcReward|] eqn:Hc;
    [|done].
  destruct (contracts_CalculateRewardForHolders _ _ _ _ _) as [[e|] r] eqn:Hh;
    [done|].
  intros [= ->]. split; [done|]. split; [done|]. split; [lia|]. split.
  - intros Heq. rewrite <-Heq, Z.sub_diag in Hr. unfold wrap64 in Hr.
    rewrite Z.mod_0_l in Hr; lia.
  - exists state, calcReward. split; [done|]. split; [|done].
    by apply elem_of_list_to_map_2.
Qed.

End EthVotersRewards.

(** ** Witnesses of the further properties *)

Lemma dump_reads_one_side_witness :
  sideTrie Ask exchange_disagree = sideTrie Ask exchange_disagree_other /\
  sideTrie Bid exchange_disagree <> sideTrie Bid exchange_disagree_other /\
  DumpTrie sample_DecodeBytes Ask state_disagree book1 =
  DumpTrie sample_DecodeBytes Ask state_disagree_other book1.
Proof.
  split; [reflexivity|]. split.
  - intros H. apply (f_equal (fun t : Trie => t !! 100)) in H.
    by vm_compute in H.
  - apply (dump_reads_one_side sample_DecodeBytes Ask state_disagree
             state_disagree_other book1 exchange_disagree
             exchange_disagree_other); reflexivity.
Defined.

Lemma dump_one_entry_per_level_witness :
  length scenario_snapshot = size (sideTrie Ask scenario_exchange).
Proof.
  apply (dump_one_entry_per_level sample_DecodeBytes Ask scenario_state book1
           scenario_exchange scenario_snapshot); reflexivity.
Defined.

Lemma dump_unsigned_witness :
  Forall (fun e => 0 <= e.1 /\
                   Forall (fun ov => 0 <= ov.1 /\ 0 <= ov.2) (Orders e.2))
         scenario_snapshot.
Proof.
  apply (dump_unsigned sample_DecodeBytes Ask scenario_state book1
           scenario_snapshot). reflexivity.
Defined.


Lemma GetPoolTransactions_all_pending_witness :
  reverse (map_to_list sample_pending) ≡ₚ map_to_list sample_pending /\
  exists txs,
    EthApiBackend_GetPoolTransactions sample_txPool_Pending sample_node
      (reverse (map_to_list sample_pending)) = (txs, None) /\
    txs = concat (reverse (map_to_list sample_pending)).*2 /\
    txs ≡ₚ concat (map_to_list sample_pending).*2 /\
    forall addr batch tx,
      sample_pending !! addr = Some batch -> tx ∈ batch -> tx ∈ txs.
Proof.
  split; [apply reverse_Permutation|].
  apply (GetPoolTransactions_all_pending unit unit Z sample_txPool_Pending
           sample_node (reverse (map_to_list sample_pending)) sample_pending
           None); [reflexivity|apply reverse_Permutation].
Defined.



Lemma GetEpochDuration_is_negated_elapsed_time_witness :
  exists d,
    EthApiBackend_GetEpochDuration sample_CurrentBlock sample_GetBlockByNumber
      sample_Epoch (fun n : Z => n) sample_Block_Time sample_node = Return d /\
    d = -1800.
Proof.
  destruct (GetEpochDuration_is_negated_elapsed_time unit unit Z
              sample_CurrentBlock sample_GetBlockByNumber sample_Epoch
              (fun n : Z => n) sample_Block_Time sample_node)
    as (d & Hd & -> & _).
  - reflexivity.
  - by vm_compute.
  - intros m n Hmn. unfold sample_Block_Time, sample_GetBlockByNumber. lia.
  - eexists. split; [exact Hd|]. reflexivity.
Defined.

Lemma StateAndHeaderByNumber_errors_witness :
  EthApiBackend_StateAndHeaderByNumber (-2) (-1) sample_CurrentBlock
    (fun e : unit => (2001, Some tt)) sample_CurrentBlock
    sample_GetHeaderByNumber sample_StateAt (fun n : Z => Some n)
    (fun n : Z => n) sample_node tt 5 = (None, None, None).
Proof.
  destruct (StateAndHeaderByNumber_errors unit unit unit Z Z unit (-2) (-1)
              sample_CurrentBlock (fun e : unit => (2001, Some tt))
              sample_CurrentBlock sample_GetHeaderByNumber sample_StateAt
              (fun n : Z => Some n) (fun n : Z => n) sample_node tt 5)
    as (_ & H & _); [done|].
  apply H. reflexivity.
Defined.

Lemma GetRewardByHash_first_file_decides_witness :
  EthApiBackend_GetRewardByHash sample_GetHeaderByHash (fun n : Z => n)
    (fun n : Z => n) (fun n : Z => n + 1) "rewards" sample_Join
    sample_ReadFile sample_Unmarshal sample_node 9 = ∅.
Proof.
  destruct (GetRewardByHash_first_file_decides unit unit Z Z
              sample_GetHeaderByHash (fun n : Z => n) (fun n : Z => n)
              (fun n : Z => n + 1) "rewards" sample_Join sample_ReadFile
              sample_Unmarshal sample_node 9 9 [x01] sample_ReadFile)
    as [H _]; [reflexivity..|].
  exact H.
Defined.

Lemma GetRewardByHash_les_eth_witness :
  LesApiBackend_GetRewardByHash (fun n : Z => n) (fun n : Z => n)
    (fun n : Z => n + 1) "rewards" sample_Join sample_ReadFile
    sample_Unmarshal sample_GetHeaderByHash sample_light_node 9 =
  EthApiBackend_GetRewardByHash sample_GetHeaderByHash (fun n : Z => n)
    (fun n : Z => n) (fun n : Z => n + 1) "rewards" sample_Join
    sample_ReadFile sample_Unmarshal sample_node 9.
Proof.
  apply (GetRewardByHash_les_eth unit unit unit Z Z sample_GetHeaderByHash
           sample_GetHeaderByHash (fun n : Z => n) (fun n : Z => n)
           (fun n : Z => n + 1) "rewards" sample_Join sample_ReadFile
           sample_Unmarshal sample_node sample_light_node 9). reflexivity.
Defined.

Lemma GetVotersRewards_visiting_order_witness :
  sample_GetVotersRewards 5 [(5, 250 * 10 ^ 18); (6, 2)] =
  sample_GetVotersRewards 5 [(6, 2); (5, 250 * 10 ^ 18)].
Proof.
  apply (GetVotersRewards_visiting_order unit unit Z Z unit unit unit).
  - apply (bool_decide_unpack _). by vm_compute.
  - apply perm_swap.
Defined.

Lemma GetVotersRewards_some_witness :
  sample_GetVotersRewards 5 [(5, 250 * 10 ^ 18); (6, 2)] = Return (Some {[ 5 := 250 * 10 ^ 18 ]}) /\
  wrap64 (wrap64 (2000 - 2000 mod 900) - 900) <> 1000.
Proof.
  assert (sample_GetVotersRewards 5 [(5, 250 * 10 ^ 18); (6, 2)]
          = Return (Some {[ 5 := 250 * 10 ^ 18 ]})) as H by reflexivity.
  split; [exact H|].
  destruct (GetVotersRewards_some unit unit Z Z unit unit unit
              sample_CurrentBlock sample_GetBlockByNumber sample_StateAt
              (fun _ => tt) sample_Epoch (fun _ => 7) (fun _ => 1000)
              (fun _ => 250) (fun n : Z => Some n) (fun n : Z => n)
              (fun n : Z => n) (10 ^ 18) 15768000 (fun r _ _ => r)
              sample_GetRewardForCheckpoint sample_CalculateRewardForSigner
              sample_CalculateRewardForHolders sample_node 5
              [(5, 250 * 10 ^ 18); (6, 2)] {[ 5 := 250 * 10 ^ 18 ]} H)
    as (_ & _ & _ & Hr & _).
  exact Hr.
Defined.
